(** * Parselmouth, docs/examples/psychopy_experiments.ipynb

    A shallow embedding of the adaptive-staircase listening experiment of
    the PsychoPy example notebook: the [Begin Experiment], [Begin Routine]
    and [End Routine] code cells, the mock PsychoPy objects they talk to,
    and the stimulus-synthesis pipeline they run.

    Samples are real numbers: the development verifies the arithmetic of the
    pipeline in exact arithmetic and says nothing about rounding. *)

From Stdlib Require Import Reals Lra ZArith Ascii String.
From Stdlib Require Import DecimalString DecimalZ DecimalPos.
From stdpp Require Import gmap strings list.

Open Scope R_scope.

(** ** Sounds and exceptions *)

(** A [parselmouth.Sound] restricted to one channel: the row of [values]
    and the [sampling_frequency] (a float in Parselmouth). *)
Record Sound := mkSound {
  values : list R;
  sampling_frequency : R
}.

Definition n_samples (s : Sound) : nat := length (values s).

(** The exceptions a cell can raise.  The first six are Python's and
    NumPy's own ([SystemError] is explained at [deref]); the last four are
    of the error taxonomy of the specification, [IOWriteError] standing
    for what [Sound.save] raises when the file cannot be written. *)
Inductive exn :=
| KeyError (key : string)
| IndexError
| ValueError
| AttributeError
| NameError
| SystemError
| SilentBufferError
| SampleRateMismatchError
| LengthMismatchError
| IOWriteError.

Inductive result (A : Type) :=
| Ok (a : A)
| Raise (e : exn).
Arguments Ok {A} a.
Arguments Raise {A} e.

Definition rbind {A B} (r : result A) (k : A -> result B) : result B :=
  match r with
  | Ok a => k a
  | Raise e => Raise e
  end.

(** ** IntensityScaler *)

Definition sum_sq (xs : list R) : R :=
  fold_right (fun x acc => x * x + acc) 0 xs.

(** Root-mean-square amplitude over all samples. *)
Definition rms (b : Sound) : R :=
  sqrt (sum_sq (values b) / INR (n_samples b)).

Definition log10 (x : R) : R := ln x / ln 10.

(** The factor that takes a signal of intensity [currentDb] to intensity
    [targetDb]: [10^((targetDb - currentDb)/20)]. *)
Definition gain (targetDb currentDb : R) : R :=
  Rpower 10 ((targetDb - currentDb) / 20).

Section IntensityScaler.

(** The fixed reference constant intensities are measured against.  The
    notebook never names it; it is a parameter of the development. *)
Variable p_ref : R.

(** Modelled from the spec: [Sound.get_intensity] is library code outside
    the notebook.  "compute root-mean-square amplitude over all samples,
    convert to decibels relative to a fixed reference pressure constant;
    fails with SilentBufferError if RMS is exactly zero". *)
Definition measureIntensity (b : Sound) : result R :=
  if Req_dec_T (rms b) 0 then Raise SilentBufferError
  else Ok (20 * log10 (rms b / p_ref)).

(** Modelled from the spec: [Sound.scale_intensity] is library code
    outside the notebook.  "returns a new buffer whose samples are
    buffer.samples * 10^((targetDb - measureIntensity(buffer))/20)". *)
Definition scaleToIntensity (b : Sound) (targetDb : R) : result Sound :=
  rbind (measureIntensity b) (fun currentDb =>
    Ok (mkSound (map (fun x => x * gain targetDb currentDb) (values b))
                (sampling_frequency b))).

End IntensityScaler.

(** ** NumPy and the random module *)

(** The state of a deterministic generator is the sequence of values it is
    going to hand out: [np.random]'s global generator holds the standard
    normal deviates to come, Python's [random] module the integers to come.
    How the Mersenne Twister arrives at them is outside the model; a draw
    below [n] is the next integer modulo [n]. *)
Definition np_state := nat -> R.
Definition py_state := nat -> nat.

(** [np.random.normal(size=n)]: the next [n] deviates, and the generator
    advanced past them. *)
Definition normal (n : nat) (g : np_state) : list R * np_state :=
  (map g (seq 0 n), fun i => g (n + i)%nat).

(** [random.choice(seq)]: [seq[randbelow(len(seq))]], IndexError on an
    empty sequence. *)
Definition choice {A} (xs : list A) (g : py_state) : result A * py_state :=
  match xs with
  | [] => (Raise IndexError, g)
  | _ :: _ =>
      match xs !! (g 0%nat mod length xs)%nat with
      | Some x => (Ok x, fun i => g (S i))
      | None => (Raise IndexError, g)
      end
  end.

(** [a += b] on two one-row arrays: element-wise when the rows are equally
    long, [b] broadcast when it has a single column, ValueError otherwise
    (the operands cannot be broadcast into the shape of [a]). *)
Definition iadd (a b : list R) : result (list R) :=
  if decide (length b = length a) then Ok (zip_with Rplus a b)
  else match b with
       | [y] => Ok (map (fun x => x + y) a)
       | _ => Raise ValueError
       end.

(** [str(n)] of a Python int. *)
Definition str (n : Z) : string := NilZero.string_of_int (Z.to_int n).

(** ** The interpreter state *)

(** Objects are identified by their address; a variable or a dictionary
    entry holds an address, so that two names can share one [Sound]. *)
Definition loc := nat.

(** What a run leaves behind outside the interpreter: lines on the
    standard output and sound files written.  Of the file system the
    state keeps which paths a file can be written to ([writable]). *)
Inductive event :=
| Printed (line : string)
| Saved (path : string) (snd : Sound).

Record World := mkWorld {
  heap : gmap loc Sound;            (* the Sound objects alive *)
  py_random : py_state;             (* the random module's hidden generator *)
  np_random : np_state;             (* np.random's hidden generator *)
  trace : list event;
  writable : string -> bool;        (* can a file be written at this path *)
  (* globals of the notebook *)
  stimuli : gmap string loc;
  level : R;
  filename : string;
  thisTrialN : Z;                   (* trials.thisTrialN *)
  keys : option string;             (* key_resp_2.keys, absent until assigned *)
  random_condition : option string;
  noisy_stimulus : option loc
}.

Definition set_heap (h : gmap loc Sound) (w : World) : World :=
  mkWorld h (py_random w) (np_random w) (trace w) (writable w) (stimuli w) (level w)
          (filename w) (thisTrialN w) (keys w) (random_condition w)
          (noisy_stimulus w).

Definition set_py_random (g : py_state) (w : World) : World :=
  mkWorld (heap w) g (np_random w) (trace w) (writable w) (stimuli w) (level w)
          (filename w) (thisTrialN w) (keys w) (random_condition w)
          (noisy_stimulus w).

Definition set_np_random (g : np_state) (w : World) : World :=
  mkWorld (heap w) (py_random w) g (trace w) (writable w) (stimuli w) (level w)
          (filename w) (thisTrialN w) (keys w) (random_condition w)
          (noisy_stimulus w).

Definition set_trace (t : list event) (w : World) : World :=
  mkWorld (heap w) (py_random w) (np_random w) t (writable w) (stimuli w) (level w)
          (filename w) (thisTrialN w) (keys w) (random_condition w)
          (noisy_stimulus w).

Definition set_stimuli (d : gmap string loc) (w : World) : World :=
  mkWorld (heap w) (py_random w) (np_random w) (trace w) (writable w) d (level w)
          (filename w) (thisTrialN w) (keys w) (random_condition w)
          (noisy_stimulus w).

Definition set_keys (k : option string) (w : World) : World :=
  mkWorld (heap w) (py_random w) (np_random w) (trace w) (writable w) (stimuli w) (level w)
          (filename w) (thisTrialN w) k (random_condition w)
          (noisy_stimulus w).

Definition set_random_condition (c : option string) (w : World) : World :=
  mkWorld (heap w) (py_random w) (np_random w) (trace w) (writable w) (stimuli w) (level w)
          (filename w) (thisTrialN w) (keys w) c (noisy_stimulus w).

Definition set_noisy_stimulus (l : option loc) (w : World) : World :=
  mkWorld (heap w) (py_random w) (np_random w) (trace w) (writable w) (stimuli w) (level w)
          (filename w) (thisTrialN w) (keys w) (random_condition w) l.

(** ** The monad of cell code: state and exceptions *)

Definition M (A : Type) : Type := World -> result A * World.

Definition ret {A} (a : A) : M A := fun w => (Ok a, w).

Definition raise {A} (e : exn) : M A := fun w => (Raise e, w).

Definition bind {A B} (m : M A) (k : A -> M B) : M B :=
  fun w =>
    match m w with
    | (Ok a, w') => k a w'
    | (Raise e, w') => (Raise e, w')
    end.

Notation "x <- m ;; k" := (bind m (fun x => k))
  (at level 100, m at next level, right associativity).
Notation "m ;;; k" := (bind m (fun _ => k))
  (at level 100, right associativity).

Definition lift {A} (r : result A) : M A := fun w => (r, w).

Definition gets {A} (f : World -> A) : M A := fun w => (Ok (f w), w).

Definition modify (f : World -> World) : M unit := fun w => (Ok tt, f w).

(** Reading a name or an attribute that may not have been assigned. *)
Definition read {A} (f : World -> option A) (e : exn) : M A :=
  fun w => match f w with
           | Some a => (Ok a, w)
           | None => (Raise e, w)
           end.

Fixpoint for_each {A} (xs : list A) (body : A -> M unit) : M unit :=
  match xs with
  | [] => ret tt
  | x :: xs' => body x ;;; for_each xs' body
  end.

Definition print (line : string) : M unit :=
  modify (fun w => set_trace (trace w ++ [Printed line]) w).

(** ** Sound objects *)

(** A new object at an address no live object has. *)
Definition alloc (s : Sound) : M loc :=
  fun w => let l := fresh (dom (heap w)) in
           (Ok l, set_heap (<[l := s]> (heap w)) w).

(** An address always refers to a live object in Python; [SystemError]
    stands for the case the finite map allows and the language does not. *)
Definition deref (l : loc) : M Sound :=
  read (fun w => heap w !! l) SystemError.

Definition store (l : loc) (s : Sound) : M unit :=
  modify (fun w => set_heap (<[l := s]> (heap w)) w).

(** [d[key]] on a dictionary. *)
Definition getitem {V} (d : gmap string V) (key : string) : result V :=
  match d !! key with
  | Some v => Ok v
  | None => Raise (KeyError key)
  end.

Definition random_choice {A} (xs : list A) : M A :=
  fun w => let (r, g) := choice xs (py_random w) in (r, set_py_random g w).

Definition np_random_normal (size : nat) : M (list R) :=
  fun w => let (v, g) := normal size (np_random w) in (Ok v, set_np_random g w).

(** An attribute of the object at an address. *)
Definition attr {A} (f : Sound -> A) (l : loc) : M A :=
  s <- deref l ;; ret (f s).

(** [parselmouth.Sound(samples, sampling_frequency=f)]: the samples are
    copied into a new object. *)
Definition Sound_from_samples (samples : list R) (f : R) : M loc :=
  alloc (mkSound samples f).

(** [sound.values]: the row of samples of the object; IndexError on a
    sound without samples. *)
Definition values_of (l : loc) : M Sound :=
  s <- deref l ;;
  if decide (n_samples s = 0%nat) then raise IndexError else ret s.

(** [dst.values += src.values]: takes the rows of [dst] and of [src], in
    this order, and writes the sum into the object at [dst]. *)
Definition values_iadd (dst src : loc) : M unit :=
  a <- values_of dst ;;
  b <- values_of src ;;
  v <- lift (iadd (values a) (values b)) ;;
  store dst (mkSound v (sampling_frequency a)).

(** [sound.save(path, 'WAV')]: fails when no file can be written at the
    path. *)
Definition save (l : loc) (path : string) : M unit :=
  s <- deref l ;;
  ok <- gets (fun w => writable w path) ;;
  if ok : bool then modify (fun w => set_trace (trace w ++ [Saved path s]) w)
  else raise IOWriteError.

(** ** The mock PsychoPy objects *)

(** [MockTrials.addResponse]. *)
Definition addResponse (response : bool) : M unit :=
  print ("Registering that this trial was "
         +:+ (if response then EmptyString else "un") +:+ "successful").

(** [MockSound.setSound]. *)
Definition setSound (file_name : string) : M unit :=
  print ("Setting audio file of Sound component to '" +:+ file_name +:+ "'").

(** The participant answers: [key_resp_2.keys = k]. *)
Definition press (k : string) : M unit := modify (set_keys (Some k)).

(** ** Constants of Begin Experiment *)

Definition conditions : list string := ["a"; "e"].

Definition stimulus_files : gmap string string :=
  <["a" := "audio/bat.wav"]> (<["e" := "audio/bet.wav"]> ∅).

Definition STANDARD_INTENSITY : R := 70.

(** [filename + "_stimulus_" + str(trials.thisTrialN) + ".wav"]. *)
Definition stimulus_file_name (base : string) (trialN : Z) : string :=
  ((base +:+ "_stimulus_") +:+ str trialN) +:+ ".wav".

(** ** The cells *)

Section Notebook.

Variable p_ref : R.

(** Decoding of the audio file at a path; the codec and the files are
    outside the notebook. *)
Variable read_wav : string -> result Sound.

(** The samples that band-limited interpolation to a new rate yields; the
    method is library code outside the notebook. *)
Variable interpolate : Sound -> R -> list R.

(** The generator state [random.seed(a)] installs. *)
Variable seed_stream : Z -> py_state.

(** [parselmouth.Sound(path)]. *)
Definition Sound_from_file (path : string) : M loc :=
  s <- lift (read_wav path) ;;
  alloc s.

(** [sound.scale_intensity(t)]: rescales the object in place. *)
Definition scale_intensity (l : loc) (t : R) : M unit :=
  s <- deref l ;;
  s' <- lift (scaleToIntensity p_ref s t) ;;
  store l s'.

(** Modelled from the spec: [Sound.resample] is library code outside the
    notebook.  "produces a new buffer at targetRate using a band-limited
    interpolation method; no-op (return input unchanged, or a cheap copy)
    when targetRate == buffer.sampleRate". *)
Definition resampled (b : Sound) (targetRate : R) : Sound :=
  if Req_dec_T targetRate (sampling_frequency b) then b
  else mkSound (interpolate b targetRate) targetRate.

(** [sound.resample(rate)]: the result is a new object. *)
Definition resample (l : loc) (targetRate : R) : M loc :=
  s <- deref l ;;
  alloc (resampled s targetRate).

(** [random.seed(a)]. *)
Definition random_seed (a : Z) : M unit :=
  modify (set_py_random (seed_stream a)).

(** The Begin Experiment tab. *)
Definition begin_experiment : M unit :=
  modify (set_stimuli ∅) ;;;
  for_each conditions (fun condition =>
    path <- lift (getitem stimulus_files condition) ;;
    stimulus <- Sound_from_file path ;;
    scale_intensity stimulus STANDARD_INTENSITY ;;;
    modify (fun w => set_stimuli (<[condition := stimulus]> (stimuli w)) w)).

(** The Begin Routine tab. *)
Definition begin_routine : M unit :=
  condition <- random_choice conditions ;;
  modify (set_random_condition (Some condition)) ;;;
  d <- gets stimuli ;;
  random_stimulus <- lift (getitem d condition) ;;
  n <- attr n_samples random_stimulus ;;
  noise_samples <- np_random_normal n ;;
  f <- attr sampling_frequency random_stimulus ;;
  noisy <- Sound_from_samples noise_samples f ;;
  modify (set_noisy_stimulus (Some noisy)) ;;;
  lv <- gets level ;;
  scale_intensity noisy (STANDARD_INTENSITY - lv) ;;;
  values_iadd noisy random_stimulus ;;;
  scale_intensity noisy STANDARD_INTENSITY ;;;
  base <- gets filename ;;
  trialN <- gets thisTrialN ;;
  out <- resample noisy 44100 ;;
  save out (stimulus_file_name base trialN) ;;;
  setSound (stimulus_file_name base trialN).

(** The End Routine tab. *)
Definition end_routine : M unit :=
  k <- read keys AttributeError ;;
  c <- read random_condition NameError ;;
  addResponse (String.eqb k c).

(** ** The pipeline in the words of the specification *)

(** NoiseGenerator.generate(nSamples, sampleRate, rng). *)
Definition generate (nSamples : nat) (sampleRate : R) (rng : np_state) : Sound :=
  mkSound (fst (normal nSamples rng)) sampleRate.

(** Step 4, "sample-wise addition; buffers must have identical length and
    rate". *)
Definition mix (a b : Sound) : result Sound :=
  if Req_dec_T (sampling_frequency a) (sampling_frequency b) then
    if decide (n_samples a = n_samples b) then
      Ok (mkSound (zip_with Rplus (values a) (values b)) (sampling_frequency a))
    else Raise LengthMismatchError
  else Raise SampleRateMismatchError.

(** StimulusSynthesizer.synthesize, steps 2 to 6. *)
Definition synthesize (referenceBuffer : Sound) (lv standardDb : R)
    (rng : np_state) : result Sound :=
  let N := generate (n_samples referenceBuffer)
                    (sampling_frequency referenceBuffer) rng in
  rbind (scaleToIntensity p_ref N (standardDb - lv)) (fun N' =>
  rbind (mix referenceBuffer N') (fun M' =>
  scaleToIntensity p_ref M' standardDb)).

End Notebook.

(** The buffer a trial produced: what [noisy_stimulus] names. *)
Definition produced (w : World) : option Sound :=
  match noisy_stimulus w with
  | Some l => heap w !! l
  | None => None
  end.

(** ** The stages of a trial, as values *)

(** The buffer [scaleToIntensity] returns when it returns one. *)
Definition scaled (p_ref : R) (s : Sound) (t : R) : Sound :=
  mkSound (map (fun x => x * gain t (20 * log10 (rms s / p_ref))) (values s))
          (sampling_frequency s).

(** The noise object as first built, after its scaling, after the
    reference was added into it, and after the final scaling. *)
Definition noise0 (ref : Sound) (w : World) : Sound :=
  mkSound (fst (normal (n_samples ref) (np_random w))) (sampling_frequency ref).

Definition noise1 (p_ref : R) (ref : Sound) (w : World) : Sound :=
  scaled p_ref (noise0 ref w) (STANDARD_INTENSITY - level w).

Definition noise2 (p_ref : R) (ref : Sound) (w : World) : Sound :=
  mkSound (zip_with Rplus (values (noise1 p_ref ref w)) (values ref))
          (sampling_frequency (noise1 p_ref ref w)).

Definition noise3 (p_ref : R) (ref : Sound) (w : World) : Sound :=
  scaled p_ref (noise2 p_ref ref w) STANDARD_INTENSITY.

(** The state of the random sources and of the globals once the condition
    is drawn and the noise samples are taken. *)
Definition drawn (c : string) (ref : Sound) (w : World) : World :=
  set_np_random (snd (normal (n_samples ref) (np_random w)))
    (set_random_condition (Some c)
      (set_py_random (fun i => py_random w (S i)) w)).

(** The state once the noise object exists and holds [s]. *)
Definition noisy_at (c : string) (ref s : Sound) (w : World) : World :=
  set_heap (<[fresh (dom (heap w)) := s]> (heap w))
    (set_noisy_stimulus (Some (fresh (dom (heap w)))) (drawn c ref w)).

(** The state a successful Begin Routine ends in. *)
Definition routine_done (p_ref : R) (interpolate : Sound -> R -> list R)
    (c : string) (ref : Sound) (w : World) : World :=
  let w' := noisy_at c ref (noise3 p_ref ref w) w in
  let out := resampled interpolate (noise3 p_ref ref w) 44100 in
  let name := stimulus_file_name (filename w) (thisTrialN w) in
  set_trace (trace w ++ [Saved name out;
                         Printed ("Setting audio file of Sound component to '"
                                  +:+ name +:+ "'")])
    (set_heap (<[fresh (dom (heap w')) := out]> (heap w')) w').

(** The state Begin Routine stops in when the file cannot be written: the
    buffer is produced and resampled, nothing is saved or printed. *)
Definition routine_unsaved (p_ref : R) (interpolate : Sound -> R -> list R)
    (c : string) (ref : Sound) (w : World) : World :=
  let w' := noisy_at c ref (noise3 p_ref ref w) w in
  set_heap (<[fresh (dom (heap w')) :=
               resampled interpolate (noise3 p_ref ref w) 44100]> (heap w')) w'.

(** The state once the condition is drawn and recorded. *)
Definition chosen (c : string) (w : World) : World :=
  set_random_condition (Some c) (set_py_random (fun i => py_random w (S i)) w).

(** What Begin Routine is to produce, read off the state it starts in: the
    condition drawn, the sound the library has for it, and the pipeline of
    the specification run on that sound. *)
Definition routine_output (p_ref : R) (w : World) : result Sound :=
  rbind (fst (choice conditions (py_random w))) (fun c =>
  rbind (getitem (stimuli w) c) (fun l =>
  match heap w !! l with
  | Some ref => synthesize p_ref ref (level w) STANDARD_INTENSITY (np_random w)
  | None => Raise SystemError
  end)).

(** The six ways Begin Routine can end, each with the state it leaves. *)
Inductive outcome (p_ref : R) (interpolate : Sound -> R -> list R)
    (w : World) : result unit * World -> Prop :=
| out_KeyError c :
    c ∈ conditions ->
    fst (choice conditions (py_random w)) = Ok c ->
    stimuli w !! c = None ->
    outcome p_ref interpolate w (Raise (KeyError c), chosen c w)
| out_SystemError c l :
    c ∈ conditions ->
    fst (choice conditions (py_random w)) = Ok c ->
    stimuli w !! c = Some l ->
    heap w !! l = None ->
    outcome p_ref interpolate w (Raise SystemError, chosen c w)
| out_silent_noise c l ref :
    c ∈ conditions ->
    fst (choice conditions (py_random w)) = Ok c ->
    stimuli w !! c = Some l ->
    heap w !! l = Some ref ->
    rms (noise0 ref w) = 0 ->
    outcome p_ref interpolate w
      (Raise SilentBufferError, noisy_at c ref (noise0 ref w) w)
| out_silent_mix c l ref :
    c ∈ conditions ->
    fst (choice conditions (py_random w)) = Ok c ->
    stimuli w !! c = Some l ->
    heap w !! l = Some ref ->
    rms (noise0 ref w) <> 0 ->
    rms (noise2 p_ref ref w) = 0 ->
    outcome p_ref interpolate w
      (Raise SilentBufferError, noisy_at c ref (noise2 p_ref ref w) w)
| out_unwritable c l ref :
    c ∈ conditions ->
    fst (choice conditions (py_random w)) = Ok c ->
    stimuli w !! c = Some l ->
    heap w !! l = Some ref ->
    rms (noise0 ref w) <> 0 ->
    rms (noise2 p_ref ref w) <> 0 ->
    writable w (stimulus_file_name (filename w) (thisTrialN w)) = false ->
    outcome p_ref interpolate w
      (Raise IOWriteError, routine_unsaved p_ref interpolate c ref w)
| out_done c l ref :
    c ∈ conditions ->
    fst (choice conditions (py_random w)) = Ok c ->
    stimuli w !! c = Some l ->
    heap w !! l = Some ref ->
    rms (noise0 ref w) <> 0 ->
    rms (noise2 p_ref ref w) <> 0 ->
    writable w (stimulus_file_name (filename w) (thisTrialN w)) = true ->
    outcome p_ref interpolate w
      (Ok tt, routine_done p_ref interpolate c ref w).

(** The state once Begin Experiment has loaded and normalised the
    recording [s] for condition [c]. *)
Definition loaded (p_ref : R) (c : string) (s : Sound) (w : World) : World :=
  set_stimuli (<[c := fresh (dom (heap w))]> (stimuli w))
    (set_heap (<[fresh (dom (heap w)) := scaled p_ref s STANDARD_INTENSITY]>
                 (heap w)) w).

(** One turn of the loop of Begin Experiment. *)
Definition load_condition (p_ref : R) (read_wav : string -> result Sound)
    (condition : string) : M unit :=
  path <- lift (getitem stimulus_files condition) ;;
  stimulus <- Sound_from_file read_wav path ;;
  scale_intensity p_ref stimulus STANDARD_INTENSITY ;;;
  modify (fun w => set_stimuli (<[condition := stimulus]> (stimuli w)) w).

(** ** Trials and sessions *)

Section Session.

Variable p_ref : R.
Variable interpolate : Sound -> R -> list R.


(** One pass of the staircase loop: the stimulus is made, the participant
    presses [k], the answer is reported. *)
Definition trial (k : string) : M unit :=
  begin_routine p_ref interpolate ;;;
  press k ;;;
  end_routine.

(** The loop over the answers of a session; an exception ends it. *)
Definition session (answers : list string) : M unit :=
  for_each answers trial.

End Session.

(** A computation leaves the condition library alone: the dictionary is
    the same afterwards, and so is every object that was alive before. *)
Definition frames {A} (m : M A) : Prop :=
  forall w,
    stimuli (snd (m w)) = stimuli w /\
    forall l s, heap w !! l = Some s -> heap (snd (m w)) !! l = Some s.

(** ** A small session to run the cells on *)

Module Example.

(** Two recordings of two samples at 22050 Hz, brought to the standard
    intensity against a reference constant of 1. *)
Definition recording : Sound := mkSound [1; 0] 22050.

Definition reference : Sound := scaled 1 recording STANDARD_INTENSITY.

Definition recording_e : Sound := mkSound [0; 1] 22050.

Definition reference_e : Sound := scaled 1 recording_e STANDARD_INTENSITY.

(** Two states of NumPy's generator. *)
Definition deviates_a : np_state :=
  fun i => match i with 0%nat => 1 | _ => 0 end.

Definition deviates_b : np_state :=
  fun i => match i with 1%nat => 1 | _ => 0 end.

(** A seeding of the random module under which the first draw is 0. *)
Definition seeding : Z -> py_state := fun _ _ => 0%nat.

Definition interpolation : Sound -> R -> list R := fun s _ => values s.

Definition world_a : World :=
  {| heap := <[0%nat := reference]> (<[1%nat := reference_e]> ∅);
     py_random := seeding 42;
     np_random := deviates_a;
     trace := [];
     writable := fun _ => true;
     stimuli := <["a" := 0%nat]> (<["e" := 1%nat]> ∅);
     level := 10;
     filename := "data/participant_staircase_23032017";
     thisTrialN := 5;
     keys := None;
     random_condition := None;
     noisy_stimulus := None |}.

(** The same state but for NumPy's generator. *)
Definition world_b : World := set_np_random deviates_b world_a.


End Example.

(** ** Simplification of states *)

Ltac wsimpl :=
  cbn [heap py_random np_random trace writable stimuli level filename thisTrialN keys
       random_condition noisy_stimulus set_heap set_py_random set_np_random
       set_trace set_stimuli set_keys set_random_condition set_noisy_stimulus
       fst snd] in *.


(** ** The cells that stand in for PsychoPy *)

Definition set_level (lv : R) (w : World) : World :=
  mkWorld (heap w) (py_random w) (np_random w) (trace w) (writable w) (stimuli w) lv
          (filename w) (thisTrialN w) (keys w) (random_condition w)
          (noisy_stimulus w).

Definition set_filename (name : string) (w : World) : World :=
  mkWorld (heap w) (py_random w) (np_random w) (trace w) (writable w) (stimuli w) (level w)
          name (thisTrialN w) (keys w) (random_condition w)
          (noisy_stimulus w).

Definition set_thisTrialN (n : Z) (w : World) : World :=
  mkWorld (heap w) (py_random w) (np_random w) (trace w) (writable w) (stimuli w) (level w)
          (filename w) n (keys w) (random_condition w)
          (noisy_stimulus w).

Definition set_writable (f : string -> bool) (w : World) : World :=
  mkWorld (heap w) (py_random w) (np_random w) (trace w) f (stimuli w)
          (level w) (filename w) (thisTrialN w) (keys w) (random_condition w)
          (noisy_stimulus w).

Section Cells.

Variable p_ref : R.
Variable read_wav : string -> result Sound.
Variable interpolate : Sound -> R -> list R.
Variable seed_stream : Z -> py_state.

(** The cell that fakes what the Builder provides: [filename], a
    [MockTrials] with [thisTrialN = 5], a [MockKeyboard] without any
    attribute, and the seeding of the random module.  [MockSound] and
    [MockTrials] have no state of their own. *)
Definition fake_builder : M unit :=
  modify (set_filename "data/participant_staircase_23032017") ;;;
  modify (set_thisTrialN 5) ;;;
  modify (set_keys None) ;;;
  random_seed seed_stream 42.

(** The code cells of the notebook in the order they are run; the shell
    lines and the audio widget are left out. *)
Definition notebook : M unit :=
  begin_experiment p_ref read_wav ;;;
  modify (set_level 10) ;;;
  fake_builder ;;;
  begin_routine p_ref interpolate ;;;
  press "a" ;;;
  end_routine.

End Cells.

(** No character of [s] is [c]. *)
Fixpoint free_of (c : ascii) (s : string) : Prop :=
  match s with
  | EmptyString => True
  | String a s' => a <> c /\ free_of c s'
  end.

(** Every condition of the experiment names a live sound. *)
Definition library_complete (w : World) : Prop :=
  forall c, c ∈ conditions ->
    exists l ref, stimuli w !! c = Some l /\ heap w !! l = Some ref.

Module Studio.

(** A decoder under which both files hold the recording of [Example], one
    under which the second file is missing, and a state with no sound
    object, an empty [stimuli] and every path writable. *)
Definition decoder : string -> result Sound :=
  fun _ => Ok Example.recording.

Definition decoder_no_bet : string -> result Sound :=
  fun path => if String.eqb path "audio/bat.wav" then Ok Example.recording
              else Raise ValueError.

Definition blank : World :=
  {| heap := ∅;
     py_random := fun _ => 1%nat;
     np_random := Example.deviates_a;
     trace := [];
     writable := fun _ => true;
     stimuli := ∅;
     level := 0;
     filename := EmptyString;
     thisTrialN := 0;
     keys := None;
     random_condition := None;
     noisy_stimulus := None |}.

(** The state of [Example] with no directory to write to. *)
Definition read_only : World := set_writable (fun _ => false) Example.world_a.

End Studio.

Ltac gsimpl :=
  cbn [heap py_random np_random trace writable stimuli level filename thisTrialN keys
       random_condition noisy_stimulus set_heap set_py_random set_np_random
       set_trace set_stimuli set_keys set_random_condition set_noisy_stimulus
       set_level set_filename set_thisTrialN set_writable fst snd] in *.
(** ** Facts about the root mean square *)

Lemma sum_sq_nonneg xs : 0 <= sum_sq xs.
Proof.
  induction xs as [|x xs IH]; simpl; [lra|].
  pose proof (Rle_0_sqr x) as Hx. unfold Rsqr in Hx. lra.
Qed.

Lemma sum_sq_scale f xs :
  sum_sq (map (fun x => x * f) xs) = f * f * sum_sq xs.
Proof.
  induction xs as [|x xs IH]; simpl; [ring|]. rewrite IH. ring.
Qed.

Lemma mean_sq_nonneg xs (n : nat) : 0 <= sum_sq xs / INR n.
Proof.
  destruct n as [|n].
  - simpl. unfold Rdiv. rewrite Rinv_0. lra.
  - apply Rmult_le_pos; [apply sum_sq_nonneg|].
    apply Rlt_le, Rinv_0_lt_compat, lt_0_INR. lia.
Qed.

Lemma rms_nonneg b : 0 <= rms b.
Proof. apply sqrt_pos. Qed.

Lemma rms_pos b : rms b <> 0 -> 0 < rms b.
Proof. pose proof (rms_nonneg b). lra. Qed.

Lemma rms_nonzero_samples b : rms b <> 0 -> n_samples b <> 0%nat.
Proof.
  intros Hz Hn. apply Hz. unfold rms. rewrite Hn. cbn [INR].
  unfold Rdiv. rewrite Rinv_0, Rmult_0_r. apply sqrt_0.
Qed.

Lemma rms_scale b f :
  0 <= f ->
  rms (mkSound (map (fun x => x * f) (values b)) (sampling_frequency b))
  = f * rms b.
Proof.
  intros Hf. unfold rms, n_samples. simpl.
  rewrite length_map, sum_sq_scale.
  replace (f * f * sum_sq (values b) / INR (length (values b)))
    with ((f * f) * (sum_sq (values b) / INR (length (values b))))
    by (unfold Rdiv; ring).
  rewrite sqrt_mult.
  - now rewrite sqrt_square.
  - nra.
  - apply mean_sq_nonneg.
Qed.

Lemma ln10_pos : 0 < ln 10.
Proof. rewrite <- ln_1. apply ln_increasing; lra. Qed.

Lemma gain_pos t c : 0 < gain t c.
Proof. unfold gain, Rpower. apply exp_pos. Qed.

Lemma log10_gain t c : log10 (gain t c) = (t - c) / 20.
Proof.
  unfold log10, gain, Rpower. rewrite ln_exp.
  pose proof ln10_pos. field. lra.
Qed.

Lemma log10_mult x y : 0 < x -> 0 < y -> log10 (x * y) = log10 x + log10 y.
Proof.
  intros Hx Hy. unfold log10. rewrite ln_mult by assumption.
  pose proof ln10_pos. field. lra.
Qed.

Lemma gain_same t : gain t t = 1.
Proof.
  unfold gain, Rpower.
  replace ((t - t) / 20 * ln 10) with 0 by (unfold Rdiv; ring).
  apply exp_0.
Qed.

Lemma map_mult_1 xs : map (fun x => x * 1) xs = xs.
Proof. induction xs as [|x xs IH]; simpl; [reflexivity|]. rewrite IH. f_equal. ring. Qed.

(** ** What the scaler returns *)

Lemma measureIntensity_ok p_ref b :
  rms b <> 0 -> measureIntensity p_ref b = Ok (20 * log10 (rms b / p_ref)).
Proof. intros H. unfold measureIntensity. now destruct (Req_dec_T (rms b) 0). Qed.

Lemma measureIntensity_silent p_ref b :
  rms b = 0 -> measureIntensity p_ref b = Raise SilentBufferError.
Proof. intros H. unfold measureIntensity. now destruct (Req_dec_T (rms b) 0). Qed.

Lemma measureIntensity_inv p_ref b d :
  measureIntensity p_ref b = Ok d -> rms b <> 0 /\ d = 20 * log10 (rms b / p_ref).
Proof.
  unfold measureIntensity. destruct (Req_dec_T (rms b) 0); [discriminate|].
  intros [= <-]. now split.
Qed.

Lemma scaleToIntensity_ok p_ref b t :
  rms b <> 0 ->
  scaleToIntensity p_ref b t =
    Ok (mkSound (map (fun x => x * gain t (20 * log10 (rms b / p_ref))) (values b))
                (sampling_frequency b)).
Proof.
  intros H. unfold scaleToIntensity. now rewrite measureIntensity_ok.
Qed.

Lemma scaleToIntensity_silent p_ref b t :
  rms b = 0 -> scaleToIntensity p_ref b t = Raise SilentBufferError.
Proof.
  intros H. unfold scaleToIntensity. now rewrite measureIntensity_silent.
Qed.

Lemma scaleToIntensity_inv p_ref b t b' :
  scaleToIntensity p_ref b t = Ok b' ->
  rms b <> 0 /\
  b' = mkSound (map (fun x => x * gain t (20 * log10 (rms b / p_ref))) (values b))
               (sampling_frequency b).
Proof.
  intros H. destruct (Req_dec_T (rms b) 0) as [Hz|Hz].
  - rewrite scaleToIntensity_silent in H by assumption. discriminate.
  - rewrite scaleToIntensity_ok in H by assumption. injection H as <-. now split.
Qed.

Lemma rms_scaled p_ref b t :
  rms (mkSound (map (fun x => x * gain t (20 * log10 (rms b / p_ref))) (values b))
               (sampling_frequency b))
  = gain t (20 * log10 (rms b / p_ref)) * rms b.
Proof. apply rms_scale, Rlt_le, gain_pos. Qed.

Lemma measure_scaled p_ref b t b' :
  0 < p_ref ->
  scaleToIntensity p_ref b t = Ok b' ->
  measureIntensity p_ref b' = Ok t.
Proof.
  intros Hp H. apply scaleToIntensity_inv in H as [Hz ->].
  pose proof (rms_pos b Hz) as Hr.
  pose proof (gain_pos t (20 * log10 (rms b / p_ref))) as Hg.
  assert (0 < rms b / p_ref) as Hq by (apply Rdiv_lt_0_compat; assumption).
  rewrite measureIntensity_ok; rewrite rms_scaled.
  - f_equal.
    replace (gain t (20 * log10 (rms b / p_ref)) * rms b / p_ref)
      with (gain t (20 * log10 (rms b / p_ref)) * (rms b / p_ref))
      by (unfold Rdiv; ring).
    rewrite log10_mult, log10_gain by assumption. field.
  - nra.
Qed.

(** ** Running cell code *)

Lemma bind_Ok {A B} (m : M A) (k : A -> M B) w a w' :
  m w = (Ok a, w') -> (x <- m ;; k x) w = k a w'.
Proof. intros H. unfold bind. now rewrite H. Qed.

Lemma bind_Raise {A B} (m : M A) (k : A -> M B) w e w' :
  m w = (Raise e, w') -> (x <- m ;; k x) w = (Raise e, w').
Proof. intros H. unfold bind. now rewrite H. Qed.

Lemma deref_Some l s w : heap w !! l = Some s -> deref l w = (Ok s, w).
Proof. intros H. unfold deref, read. now rewrite H. Qed.

Lemma deref_None l w : heap w !! l = None -> deref l w = (Raise SystemError, w).
Proof. intros H. unfold deref, read. now rewrite H. Qed.

Lemma attr_Some {A} (f : Sound -> A) l s w :
  heap w !! l = Some s -> attr f l w = (Ok (f s), w).
Proof. intros H. unfold attr. now rewrite (bind_Ok _ _ _ _ _ (deref_Some _ _ _ H)). Qed.

Lemma attr_None {A} (f : Sound -> A) l w :
  heap w !! l = None -> attr f l w = (Raise SystemError, w).
Proof. intros H. unfold attr. now rewrite (bind_Raise _ _ _ _ _ (deref_None _ _ H)). Qed.

Lemma scale_intensity_ok p_ref l t s w :
  heap w !! l = Some s -> rms s <> 0 ->
  scale_intensity p_ref l t w =
    (Ok tt,
     set_heap (<[l := mkSound (map (fun x => x * gain t (20 * log10 (rms s / p_ref)))
                                  (values s))
                              (sampling_frequency s)]> (heap w)) w).
Proof.
  intros Hl Hz. unfold scale_intensity.
  rewrite (bind_Ok _ _ _ _ _ (deref_Some _ _ _ Hl)).
  unfold bind, lift, store, modify. now rewrite scaleToIntensity_ok.
Qed.

Lemma scale_intensity_silent p_ref l t s w :
  heap w !! l = Some s -> rms s = 0 ->
  scale_intensity p_ref l t w = (Raise SilentBufferError, w).
Proof.
  intros Hl Hz. unfold scale_intensity.
  rewrite (bind_Ok _ _ _ _ _ (deref_Some _ _ _ Hl)).
  unfold bind, lift. now rewrite scaleToIntensity_silent.
Qed.

Lemma values_of_run l s w :
  heap w !! l = Some s ->
  values_of l w =
    if decide (n_samples s = 0%nat) then (Raise IndexError, w) else (Ok s, w).
Proof.
  intros H. unfold values_of.
  rewrite (bind_Ok _ _ _ _ _ (deref_Some _ _ _ H)).
  now destruct (decide _).
Qed.


Lemma values_iadd_run dst src a b w :
  heap w !! dst = Some a -> heap w !! src = Some b ->
  n_samples a <> 0%nat -> n_samples b <> 0%nat ->
  values_iadd dst src w =
    match iadd (values a) (values b) with
    | Ok v => (Ok tt, set_heap (<[dst := mkSound v (sampling_frequency a)]> (heap w)) w)
    | Raise e => (Raise e, w)
    end.
Proof.
  intros Ha Hb Hna Hnb. unfold values_iadd.
  erewrite bind_Ok;
    [|rewrite (values_of_run _ _ _ Ha); destruct (decide _); [contradiction|reflexivity]].
  erewrite bind_Ok;
    [|rewrite (values_of_run _ _ _ Hb); destruct (decide _); [contradiction|reflexivity]].
  unfold bind, lift, store, modify. now destruct (iadd _ _).
Qed.

Lemma values_iadd_empty dst src a b w :
  heap w !! dst = Some a -> heap w !! src = Some b ->
  n_samples a = 0%nat \/ n_samples b = 0%nat ->
  values_iadd dst src w = (Raise IndexError, w).
Proof.
  intros Ha Hb Hn. unfold values_iadd.
  destruct (decide (n_samples a = 0%nat)) as [Hna|Hna].
  - erewrite bind_Raise; [reflexivity|].
    rewrite (values_of_run _ _ _ Ha). now destruct (decide _).
  - erewrite bind_Ok;
      [|rewrite (values_of_run _ _ _ Ha); destruct (decide _); [contradiction|reflexivity]].
    destruct Hn as [Hn|Hn]; [contradiction|].
    erewrite bind_Raise; [reflexivity|].
    rewrite (values_of_run _ _ _ Hb). now destruct (decide _).
Qed.

(** ** Fresh addresses *)

Lemma fresh_ne (h : gmap loc Sound) l : is_Some (h !! l) -> fresh (dom h) <> l.
Proof.
  intros Hl E. apply elem_of_dom in Hl. rewrite <- E in Hl.
  exact (is_fresh (dom h) Hl).
Qed.

Lemma lookup_alloc_old (h : gmap loc Sound) l s :
  is_Some (h !! l) -> <[fresh (dom h) := s]> h !! l = h !! l.
Proof. intros Hl. apply lookup_insert_ne, fresh_ne, Hl. Qed.

Lemma lookup_fresh_None (h : gmap loc Sound) : h !! fresh (dom h) = None.
Proof. apply not_elem_of_dom, is_fresh. Qed.

(** ** The condition drawn *)

Lemma choice_conditions g :
  exists c, choice conditions g = (Ok c, fun i => g (S i)) /\ c ∈ conditions.
Proof.
  unfold choice, conditions. cbn [length].
  assert ((g 0 mod 2 = 0 \/ g 0 mod 2 = 1)%nat) as [E|E]
    by (pose proof (Nat.mod_upper_bound (g 0%nat) 2); lia);
    rewrite E; eexists; (split; [reflexivity|]); set_solver.
Qed.

Lemma bind_gets {A B} (f : World -> A) (k : A -> M B) w :
  (x <- gets f ;; k x) w = k (f w) w.
Proof. reflexivity. Qed.

Lemma bind_modify {B} (f : World -> World) (k : unit -> M B) w :
  (x <- modify f ;; k x) w = k tt (f w).
Proof. reflexivity. Qed.

Lemma bind_lift_Ok {A B} (a : A) (k : A -> M B) w :
  (x <- lift (Ok a) ;; k x) w = k a w.
Proof. reflexivity. Qed.

Lemma bind_lift_Raise {A B} e (k : A -> M B) w :
  (x <- lift (Raise e) ;; k x) w = (Raise e, w).
Proof. reflexivity. Qed.

Lemma length_normal n g : length (fst (normal n g)) = n.
Proof. unfold normal. cbn [fst]. now rewrite length_map, length_seq. Qed.

Lemma scaled_length p_ref s t : n_samples (scaled p_ref s t) = n_samples s.
Proof. unfold scaled, n_samples. cbn [values]. apply length_map. Qed.

Lemma noise1_length p_ref ref w : n_samples (noise1 p_ref ref w) = n_samples ref.
Proof.
  unfold noise1. rewrite scaled_length. unfold noise0, n_samples. cbn [values].
  apply length_normal.
Qed.

Lemma iadd_same_length a b :
  length b = length a -> iadd a b = Ok (zip_with Rplus a b).
Proof. intros H. unfold iadd. now destruct (decide (length b = length a)). Qed.

(** ** The prefix every run of Begin Routine shares *)

Section BeginRoutine.

Variable p_ref : R.
Variable interpolate : Sound -> R -> list R.

Lemma begin_routine_prefix w c l ref :
  choice conditions (py_random w) = (Ok c, fun i => py_random w (S i)) ->
  stimuli w !! c = Some l ->
  heap w !! l = Some ref ->
  begin_routine p_ref interpolate w =
    (scale_intensity p_ref (fresh (dom (heap w))) (STANDARD_INTENSITY - level w) ;;;
     values_iadd (fresh (dom (heap w))) l ;;;
     scale_intensity p_ref (fresh (dom (heap w))) STANDARD_INTENSITY ;;;
     base <- gets filename ;;
     trialN <- gets thisTrialN ;;
     out <- resample interpolate (fresh (dom (heap w))) 44100 ;;
     save out (stimulus_file_name base trialN) ;;;
     setSound (stimulus_file_name base trialN))
    (noisy_at c ref (noise0 ref w) w).
Proof.
  intros Hc Hs Hh. unfold begin_routine.
  erewrite bind_Ok; [|unfold random_choice; rewrite Hc; reflexivity].
  rewrite bind_modify, bind_gets. wsimpl.
  unfold getitem. rewrite Hs, bind_lift_Ok.
  erewrite bind_Ok; [|apply attr_Some; wsimpl; exact Hh].
  erewrite bind_Ok; [|reflexivity].
  erewrite bind_Ok; [|apply attr_Some; wsimpl; exact Hh].
  erewrite bind_Ok; [|reflexivity].
  rewrite bind_modify, bind_gets. reflexivity.
Qed.

Lemma noisy_at_lookup c ref s w :
  heap (noisy_at c ref s w) !! fresh (dom (heap w)) = Some s.
Proof. unfold noisy_at. wsimpl. apply lookup_insert_eq. Qed.

Lemma noisy_at_old c ref s w l :
  is_Some (heap w !! l) -> heap (noisy_at c ref s w) !! l = heap w !! l.
Proof. intros Hl. unfold noisy_at. wsimpl. now apply lookup_alloc_old. Qed.

Lemma noisy_at_overwrite c ref s s' w :
  set_heap (<[fresh (dom (heap w)) := s']> (heap (noisy_at c ref s w)))
           (noisy_at c ref s w)
  = noisy_at c ref s' w.
Proof.
  unfold noisy_at, set_heap. wsimpl. now rewrite insert_insert_eq.
Qed.

Lemma noisy_scale_ok c ref s t w :
  rms s <> 0 ->
  scale_intensity p_ref (fresh (dom (heap w))) t (noisy_at c ref s w)
  = (Ok tt, noisy_at c ref (scaled p_ref s t) w).
Proof.
  intros Hz.
  rewrite (scale_intensity_ok _ _ _ _ _ (noisy_at_lookup c ref s w) Hz).
  now rewrite noisy_at_overwrite.
Qed.

Lemma noisy_scale_silent c ref s t w :
  rms s = 0 ->
  scale_intensity p_ref (fresh (dom (heap w))) t (noisy_at c ref s w)
  = (Raise SilentBufferError, noisy_at c ref s w).
Proof.
  intros Hz.
  now rewrite (scale_intensity_silent _ _ _ _ _ (noisy_at_lookup c ref s w) Hz).
Qed.

Lemma noisy_iadd c ref s w l :
  heap w !! l = Some ref ->
  n_samples s = n_samples ref ->
  n_samples ref <> 0%nat ->
  values_iadd (fresh (dom (heap w))) l (noisy_at c ref s w)
  = (Ok tt,
     noisy_at c ref (mkSound (zip_with Rplus (values s) (values ref))
                             (sampling_frequency s)) w).
Proof.
  intros Hl Hn H0.
  rewrite (values_iadd_run _ _ s ref).
  - rewrite iadd_same_length by (symmetry; exact Hn).
    now rewrite noisy_at_overwrite.
  - apply noisy_at_lookup.
  - rewrite noisy_at_old by (rewrite Hl; eauto). exact Hl.
  - congruence.
  - exact H0.
Qed.

Lemma audible_noise_samples ref w :
  rms (noise0 ref w) <> 0 -> n_samples ref <> 0%nat.
Proof.
  intros Hz. apply rms_nonzero_samples in Hz.
  unfold noise0, n_samples in Hz. cbn [values] in Hz.
  now rewrite length_normal in Hz.
Qed.

(** The three ways Begin Routine can end once the condition names a
    loaded sound. *)
Lemma begin_routine_silent_noise w c l ref :
  choice conditions (py_random w) = (Ok c, fun i => py_random w (S i)) ->
  stimuli w !! c = Some l ->
  heap w !! l = Some ref ->
  rms (noise0 ref w) = 0 ->
  begin_routine p_ref interpolate w
  = (Raise SilentBufferError, noisy_at c ref (noise0 ref w) w).
Proof.
  intros Hc Hs Hh Hz. rewrite (begin_routine_prefix w c l ref Hc Hs Hh).
  now rewrite (bind_Raise _ _ _ _ _ (noisy_scale_silent c ref _ _ w Hz)).
Qed.

Lemma begin_routine_silent_mix w c l ref :
  choice conditions (py_random w) = (Ok c, fun i => py_random w (S i)) ->
  stimuli w !! c = Some l ->
  heap w !! l = Some ref ->
  rms (noise0 ref w) <> 0 ->
  rms (noise2 p_ref ref w) = 0 ->
  begin_routine p_ref interpolate w
  = (Raise SilentBufferError, noisy_at c ref (noise2 p_ref ref w) w).
Proof.
  intros Hc Hs Hh Hz Hm. rewrite (begin_routine_prefix w c l ref Hc Hs Hh).
  rewrite (bind_Ok _ _ _ _ _ (noisy_scale_ok c ref _ _ w Hz)).
  rewrite (bind_Ok _ _ _ _ _
             (noisy_iadd c ref _ w l Hh (noise1_length p_ref ref w)
                (audible_noise_samples ref w Hz))).
  now rewrite (bind_Raise _ _ _ _ _ (noisy_scale_silent c ref _ _ w Hm)).
Qed.

Lemma begin_routine_synthesized w c l ref :
  choice conditions (py_random w) = (Ok c, fun i => py_random w (S i)) ->
  stimuli w !! c = Some l ->
  heap w !! l = Some ref ->
  rms (noise0 ref w) <> 0 ->
  rms (noise2 p_ref ref w) <> 0 ->
  begin_routine p_ref interpolate w
  = if writable w (stimulus_file_name (filename w) (thisTrialN w))
    then (Ok tt, routine_done p_ref interpolate c ref w)
    else (Raise IOWriteError, routine_unsaved p_ref interpolate c ref w).
Proof.
  intros Hc Hs Hh Hz Hm. rewrite (begin_routine_prefix w c l ref Hc Hs Hh).
  rewrite (bind_Ok _ _ _ _ _ (noisy_scale_ok c ref _ _ w Hz)).
  rewrite (bind_Ok _ _ _ _ _
             (noisy_iadd c ref _ w l Hh (noise1_length p_ref ref w)
                (audible_noise_samples ref w Hz))).
  rewrite (bind_Ok _ _ _ _ _ (noisy_scale_ok c ref _ _ w Hm)).
  rewrite !bind_gets.
  fold (noise1 p_ref ref w). fold (noise2 p_ref ref w). fold (noise3 p_ref ref w).
  set (w3 := noisy_at c ref (noise3 p_ref ref w) w).
  assert (resample interpolate (fresh (dom (heap w))) 44100 w3
          = (Ok (fresh (dom (heap w3))),
             routine_unsaved p_ref interpolate c ref w)) as Hr.
  { unfold resample, w3.
    now rewrite (bind_Ok _ _ _ _ _ (deref_Some _ _ _ (noisy_at_lookup c ref _ w))). }
  rewrite (bind_Ok _ _ _ _ _ Hr).
  unfold save.
  assert (deref (fresh (dom (heap w3))) (routine_unsaved p_ref interpolate c ref w)
          = (Ok (resampled interpolate (noise3 p_ref ref w) 44100),
             routine_unsaved p_ref interpolate c ref w)) as Hd.
  { apply deref_Some. unfold routine_unsaved. fold w3. wsimpl.
    apply lookup_insert_eq. }
  unfold bind at 1. unfold bind at 1. rewrite Hd. rewrite bind_gets.
  change (writable (routine_unsaved p_ref interpolate c ref w))
    with (writable w).
  change (filename w3) with (filename w).
  change (thisTrialN w3) with (thisTrialN w).
  destruct (writable w (stimulus_file_name (filename w) (thisTrialN w)));
    [|reflexivity].
  unfold setSound, print, modify, routine_done, routine_unsaved. fold w3.
  wsimpl. unfold noisy_at in w3. subst w3. unfold set_trace, set_heap. wsimpl.
  rewrite <- app_assoc. reflexivity.
Qed.

Lemma begin_routine_ok w c l ref :
  choice conditions (py_random w) = (Ok c, fun i => py_random w (S i)) ->
  stimuli w !! c = Some l ->
  heap w !! l = Some ref ->
  rms (noise0 ref w) <> 0 ->
  rms (noise2 p_ref ref w) <> 0 ->
  writable w (stimulus_file_name (filename w) (thisTrialN w)) = true ->
  begin_routine p_ref interpolate w
  = (Ok tt, routine_done p_ref interpolate c ref w).
Proof.
  intros Hc Hs Hh Hz Hm Hw.
  rewrite (begin_routine_synthesized w c l ref Hc Hs Hh Hz Hm). now rewrite Hw.
Qed.

Lemma begin_routine_unwritable w c l ref :
  choice conditions (py_random w) = (Ok c, fun i => py_random w (S i)) ->
  stimuli w !! c = Some l ->
  heap w !! l = Some ref ->
  rms (noise0 ref w) <> 0 ->
  rms (noise2 p_ref ref w) <> 0 ->
  writable w (stimulus_file_name (filename w) (thisTrialN w)) = false ->
  begin_routine p_ref interpolate w
  = (Raise IOWriteError, routine_unsaved p_ref interpolate c ref w).
Proof.
  intros Hc Hs Hh Hz Hm Hw.
  rewrite (begin_routine_synthesized w c l ref Hc Hs Hh Hz Hm). now rewrite Hw.
Qed.

End BeginRoutine.

(** ** The pipeline of the specification, stage by stage *)

Lemma zip_with_Rplus_comm (xs ys : list R) :
  zip_with Rplus xs ys = zip_with Rplus ys xs.
Proof.
  revert ys. induction xs as [|x xs IH]; intros [|y ys]; cbn; try reflexivity.
  rewrite IH. f_equal. ring.
Qed.

Lemma generate_noise0 ref w :
  generate (n_samples ref) (sampling_frequency ref) (np_random w) = noise0 ref w.
Proof. reflexivity. Qed.

Lemma mix_noise1 p_ref ref w :
  mix ref (noise1 p_ref ref w) = Ok (noise2 p_ref ref w).
Proof.
  unfold mix.
  destruct (Req_dec_T _ _) as [_|Hne]; [|now elim Hne].
  rewrite noise1_length.
  destruct (decide _) as [_|Hne]; [|now elim Hne].
  unfold noise2. now rewrite zip_with_Rplus_comm.
Qed.

Lemma synthesize_silent_noise p_ref ref w :
  rms (noise0 ref w) = 0 ->
  synthesize p_ref ref (level w) STANDARD_INTENSITY (np_random w)
  = Raise SilentBufferError.
Proof.
  intros Hz. unfold synthesize. rewrite generate_noise0.
  now rewrite scaleToIntensity_silent.
Qed.

Lemma synthesize_silent_mix p_ref ref w :
  rms (noise0 ref w) <> 0 ->
  rms (noise2 p_ref ref w) = 0 ->
  synthesize p_ref ref (level w) STANDARD_INTENSITY (np_random w)
  = Raise SilentBufferError.
Proof.
  intros Hz Hm. unfold synthesize. rewrite generate_noise0.
  rewrite scaleToIntensity_ok by assumption. cbn [rbind].
  fold (scaled p_ref (noise0 ref w) (STANDARD_INTENSITY - level w)).
  fold (noise1 p_ref ref w). rewrite mix_noise1. cbn [rbind].
  now rewrite scaleToIntensity_silent.
Qed.

Lemma synthesize_ok p_ref ref w :
  rms (noise0 ref w) <> 0 ->
  rms (noise2 p_ref ref w) <> 0 ->
  synthesize p_ref ref (level w) STANDARD_INTENSITY (np_random w)
  = Ok (noise3 p_ref ref w).
Proof.
  intros Hz Hm. unfold synthesize. rewrite generate_noise0.
  rewrite scaleToIntensity_ok by assumption. cbn [rbind].
  fold (scaled p_ref (noise0 ref w) (STANDARD_INTENSITY - level w)).
  fold (noise1 p_ref ref w). rewrite mix_noise1. cbn [rbind].
  now rewrite scaleToIntensity_ok.
Qed.

(** ** Every way Begin Routine can end *)

Section Outcomes.

Variable p_ref : R.
Variable interpolate : Sound -> R -> list R.

Lemma begin_routine_KeyError w c :
  choice conditions (py_random w) = (Ok c, fun i => py_random w (S i)) ->
  stimuli w !! c = None ->
  begin_routine p_ref interpolate w = (Raise (KeyError c), chosen c w).
Proof.
  intros Hc Hs. unfold begin_routine.
  erewrite bind_Ok; [|unfold random_choice; rewrite Hc; reflexivity].
  rewrite bind_modify, bind_gets. wsimpl.
  unfold getitem. rewrite Hs. reflexivity.
Qed.

Lemma begin_routine_SystemError w c l :
  choice conditions (py_random w) = (Ok c, fun i => py_random w (S i)) ->
  stimuli w !! c = Some l ->
  heap w !! l = None ->
  begin_routine p_ref interpolate w = (Raise SystemError, chosen c w).
Proof.
  intros Hc Hs Hh. unfold begin_routine.
  erewrite bind_Ok; [|unfold random_choice; rewrite Hc; reflexivity].
  rewrite bind_modify, bind_gets. wsimpl.
  unfold getitem. rewrite Hs, bind_lift_Ok.
  erewrite bind_Raise; [reflexivity|apply attr_None; wsimpl; exact Hh].
Qed.

Lemma produced_routine_done c ref w :
  produced (routine_done p_ref interpolate c ref w) = Some (noise3 p_ref ref w).
Proof.
  unfold produced, routine_done. wsimpl. unfold noisy_at at 1. wsimpl.
  rewrite lookup_alloc_old; apply noisy_at_lookup || (rewrite noisy_at_lookup; eauto).
Qed.

Lemma produced_routine_unsaved c ref w :
  produced (routine_unsaved p_ref interpolate c ref w)
  = Some (noise3 p_ref ref w).
Proof.
  unfold produced, routine_unsaved. wsimpl. unfold noisy_at at 1. wsimpl.
  rewrite lookup_alloc_old; apply noisy_at_lookup || (rewrite noisy_at_lookup; eauto).
Qed.

Lemma begin_routine_outcome w :
  outcome p_ref interpolate w (begin_routine p_ref interpolate w).
Proof.
  destruct (choice_conditions (py_random w)) as (c & Hc & Hin).
  assert (fst (choice conditions (py_random w)) = Ok c) as Hc' by now rewrite Hc.
  destruct (stimuli w !! c) as [l|] eqn:Hs.
  2:{ rewrite (begin_routine_KeyError w c Hc Hs). now apply out_KeyError. }
  destruct (heap w !! l) as [ref|] eqn:Hh.
  2:{ rewrite (begin_routine_SystemError w c l Hc Hs Hh).
      now apply out_SystemError with l. }
  destruct (Req_dec_T (rms (noise0 ref w)) 0) as [Hz|Hz].
  { rewrite (begin_routine_silent_noise p_ref interpolate w c l ref Hc Hs Hh Hz).
    now apply out_silent_noise with l. }
  destruct (Req_dec_T (rms (noise2 p_ref ref w)) 0) as [Hm|Hm].
  { rewrite (begin_routine_silent_mix p_ref interpolate w c l ref Hc Hs Hh Hz Hm).
    now apply out_silent_mix with l. }
  destruct (writable w (stimulus_file_name (filename w) (thisTrialN w)))
    eqn:Hw.
  - rewrite (begin_routine_ok p_ref interpolate w c l ref Hc Hs Hh Hz Hm Hw).
    now apply out_done with l.
  - rewrite (begin_routine_unwritable p_ref interpolate w c l ref
               Hc Hs Hh Hz Hm Hw).
    now apply out_unwritable with l.
Qed.

(** Begin Routine produces what [routine_output] says, and ends well
    when the file can be written. *)
Lemma begin_routine_refines w :
  match routine_output p_ref w with
  | Ok out =>
      produced (snd (begin_routine p_ref interpolate w)) = Some out /\
      fst (begin_routine p_ref interpolate w)
      = if writable w (stimulus_file_name (filename w) (thisTrialN w))
        then Ok tt else Raise IOWriteError
  | Raise e => fst (begin_routine p_ref interpolate w) = Raise e
  end.
Proof.
  unfold routine_output.
  destruct (begin_routine_outcome w) as
    [c Hin Hc Hs|c l Hin Hc Hs Hh|c l ref Hin Hc Hs Hh Hz
    |c l ref Hin Hc Hs Hh Hz Hm|c l ref Hin Hc Hs Hh Hz Hm Hw
    |c l ref Hin Hc Hs Hh Hz Hm Hw];
    rewrite Hc; cbn [rbind fst snd]; unfold getitem; rewrite Hs; cbn [rbind];
    try rewrite Hh; try reflexivity.
  - now rewrite synthesize_silent_noise.
  - now rewrite synthesize_silent_mix.
  - rewrite synthesize_ok by assumption. rewrite Hw.
    split; [apply produced_routine_unsaved|reflexivity].
  - rewrite synthesize_ok by assumption. rewrite Hw.
    split; [apply produced_routine_done|reflexivity].
Qed.

End Outcomes.

(** ** Begin Experiment builds a normalised library *)

Section BeginExperiment.

Variable p_ref : R.
Variable read_wav : string -> result Sound.

Lemma begin_experiment_unfold w :
  begin_experiment p_ref read_wav w
  = (load_condition p_ref read_wav "a" ;;;
     load_condition p_ref read_wav "e" ;;;
     ret tt) (set_stimuli ∅ w).
Proof. reflexivity. Qed.

Lemma load_condition_run c path w :
  stimulus_files !! c = Some path ->
  load_condition p_ref read_wav c w =
    match read_wav path with
    | Ok s =>
        if Req_dec_T (rms s) 0
        then (Raise SilentBufferError,
              set_heap (<[fresh (dom (heap w)) := s]> (heap w)) w)
        else (Ok tt, loaded p_ref c s w)
    | Raise e => (Raise e, w)
    end.
Proof.
  intros Hp. unfold load_condition, getitem. rewrite Hp, bind_lift_Ok.
  assert (Sound_from_file read_wav path w =
          match read_wav path with
          | Ok s => (Ok (fresh (dom (heap w))),
                     set_heap (<[fresh (dom (heap w)) := s]> (heap w)) w)
          | Raise e => (Raise e, w)
          end) as Ha.
  { unfold Sound_from_file, bind, lift. now destruct (read_wav path). }
  destruct (read_wav path) as [s|e];
    [rewrite (bind_Ok _ _ _ _ _ Ha)|now rewrite (bind_Raise _ _ _ _ _ Ha)].
  set (wa := set_heap (<[fresh (dom (heap w)) := s]> (heap w)) w).
  assert (heap wa !! fresh (dom (heap w)) = Some s) as Hl
    by (unfold wa; wsimpl; apply lookup_insert_eq).
  destruct (Req_dec_T (rms s) 0) as [Hz|Hz].
  - now rewrite (bind_Raise _ _ _ _ _ (scale_intensity_silent p_ref _ _ _ _ Hl Hz)).
  - rewrite (bind_Ok _ _ _ _ _ (scale_intensity_ok p_ref _ _ _ _ Hl Hz)).
    unfold modify, loaded, wa, set_stimuli, set_heap, scaled. wsimpl.
    now rewrite insert_insert_eq.
Qed.

Lemma begin_experiment_Ok_inv w w' :
  begin_experiment p_ref read_wav w = (Ok tt, w') ->
  exists bat bet,
    read_wav "audio/bat.wav" = Ok bat /\ rms bat <> 0 /\
    read_wav "audio/bet.wav" = Ok bet /\ rms bet <> 0 /\
    w' = loaded p_ref "e" bet (loaded p_ref "a" bat (set_stimuli ∅ w)).
Proof.
  rewrite begin_experiment_unfold. unfold bind at 1.
  rewrite (load_condition_run "a" "audio/bat.wav") by reflexivity.
  destruct (read_wav "audio/bat.wav") as [bat|e]; [|discriminate].
  destruct (Req_dec_T (rms bat) 0) as [Hz|Hz]; [discriminate|].
  unfold bind at 1.
  rewrite (load_condition_run "e" "audio/bet.wav") by reflexivity.
  destruct (read_wav "audio/bet.wav") as [bet|e]; [|discriminate].
  destruct (Req_dec_T (rms bet) 0) as [Hz'|Hz']; [discriminate|].
  intros [= <-]. now exists bat, bet.
Qed.

Lemma begin_experiment_ok w bat bet :
  read_wav "audio/bat.wav" = Ok bat -> rms bat <> 0 ->
  read_wav "audio/bet.wav" = Ok bet -> rms bet <> 0 ->
  begin_experiment p_ref read_wav w
  = (Ok tt, loaded p_ref "e" bet (loaded p_ref "a" bat (set_stimuli ∅ w))).
Proof.
  intros Ha Hza He Hze. rewrite begin_experiment_unfold. unfold bind at 1.
  rewrite (load_condition_run "a" "audio/bat.wav") by reflexivity.
  rewrite Ha. destruct (Req_dec_T (rms bat) 0); [contradiction|].
  unfold bind at 1.
  rewrite (load_condition_run "e" "audio/bet.wav") by reflexivity.
  rewrite He. destruct (Req_dec_T (rms bet) 0); [contradiction|].
  reflexivity.
Qed.

(** After a successful Begin Experiment every condition names a live sound
    of the standard intensity: what Begin Routine assumes of its reference. *)
Lemma begin_experiment_normalizes w w' :
  0 < p_ref ->
  begin_experiment p_ref read_wav w = (Ok tt, w') ->
  forall c, c ∈ conditions ->
    exists l ref,
      stimuli w' !! c = Some l /\
      heap w' !! l = Some ref /\
      measureIntensity p_ref ref = Ok STANDARD_INTENSITY.
Proof.
  intros Hp H c Hc.
  destruct (begin_experiment_Ok_inv w w' H) as (bat & bet & _ & Hza & _ & Hze & ->).
  set (w0 := set_stimuli ∅ w).
  set (w1 := loaded p_ref "a" bat w0).
  assert (forall s, rms s <> 0 ->
            measureIntensity p_ref (scaled p_ref s STANDARD_INTENSITY)
            = Ok STANDARD_INTENSITY) as Hstd.
  { intros s Hs. apply (measure_scaled p_ref s); [exact Hp|].
    now apply scaleToIntensity_ok. }
  unfold conditions in Hc.
  apply elem_of_cons in Hc as [->|Hc];
    [|apply elem_of_cons in Hc as [->|Hc]; [|now apply elem_of_nil in Hc]].
  - exists (fresh (dom (heap w0))), (scaled p_ref bat STANDARD_INTENSITY).
    unfold loaded at 1 2. wsimpl. split; [|split].
    + rewrite lookup_insert_ne by done. unfold w1, loaded. wsimpl.
      apply lookup_insert_eq.
    + rewrite lookup_alloc_old; unfold w1, loaded; wsimpl;
        rewrite lookup_insert_eq; eauto.
    + now apply Hstd.
  - exists (fresh (dom (heap w1))), (scaled p_ref bet STANDARD_INTENSITY).
    unfold loaded at 1 2. wsimpl. split; [|split].
    + apply lookup_insert_eq.
    + apply lookup_insert_eq.
    + now apply Hstd.
Qed.

End BeginExperiment.

(** Begin Routine after Begin Experiment: the condition drawn names a
    sound of the standard intensity, and the routine produces what the
    pipeline of the specification produces on it. *)
Lemma routine_after_experiment p_ref read_wav interpolate w w1 :
  0 < p_ref ->
  begin_experiment p_ref read_wav w = (Ok tt, w1) ->
  exists c l ref,
    fst (choice conditions (py_random w1)) = Ok c /\
    stimuli w1 !! c = Some l /\
    heap w1 !! l = Some ref /\
    measureIntensity p_ref ref = Ok STANDARD_INTENSITY /\
    match synthesize p_ref ref (level w1) STANDARD_INTENSITY (np_random w1) with
    | Ok out =>
        produced (snd (begin_routine p_ref interpolate w1)) = Some out /\
        fst (begin_routine p_ref interpolate w1)
        = if writable w1 (stimulus_file_name (filename w1) (thisTrialN w1))
          then Ok tt else Raise IOWriteError
    | Raise e => fst (begin_routine p_ref interpolate w1) = Raise e
    end.
Proof.
  intros Hp H.
  destruct (choice_conditions (py_random w1)) as (c & Hc & Hin).
  destruct (begin_experiment_normalizes p_ref read_wav w w1 Hp H c Hin)
    as (l & ref & Hs & Hh & Hstd).
  exists c, l, ref. rewrite Hc. repeat (split; [done|]).
  pose proof (begin_routine_refines p_ref interpolate w1) as Hr.
  unfold routine_output, getitem in Hr. rewrite Hc in Hr. cbn [fst rbind] in Hr.
  rewrite Hs in Hr. cbn [rbind] in Hr. now rewrite Hh in Hr.
Qed.

(** ** IntensityScaler: the claims *)

(** C3.  For every buffer with nonzero RMS and every target [t] dB,
    [scaleToIntensity] returns the buffer whose samples are the input's
    multiplied by [10^((t - measureIntensity(B))/20)], and the measured
    intensity of that buffer is [t] to within 0.01 dB. *)
Theorem scaleToIntensity_reaches_target p_ref (B : Sound) (t : R) :
  0 < p_ref ->
  rms B <> 0 ->
  exists cur B',
    measureIntensity p_ref B = Ok cur /\
    scaleToIntensity p_ref B t = Ok B' /\
    values B' = map (fun x => x * Rpower 10 ((t - cur) / 20)) (values B) /\
    sampling_frequency B' = sampling_frequency B /\
    exists d, measureIntensity p_ref B' = Ok d /\ Rabs (d - t) <= 1 / 100.
Proof.
  intros Hp Hz.
  exists (20 * log10 (rms B / p_ref)), (scaled p_ref B t).
  assert (scaleToIntensity p_ref B t = Ok (scaled p_ref B t)) as Hs
    by now apply scaleToIntensity_ok.
  repeat split.
  - now apply measureIntensity_ok.
  - exact Hs.
  - exists t. split.
    + exact (measure_scaled p_ref B t _ Hp Hs).
    + replace (t - t) with 0 by ring. rewrite Rabs_R0. lra.
Qed.

(** C5.  For every buffer with nonzero RMS, scaling to the same target a
    second time returns the buffer the first scaling returned. *)
Theorem scaleToIntensity_idempotent p_ref (B : Sound) (t : R) :
  0 < p_ref ->
  rms B <> 0 ->
  exists B',
    scaleToIntensity p_ref B t = Ok B' /\
    scaleToIntensity p_ref B' t = Ok B'.
Proof.
  intros Hp Hz. exists (scaled p_ref B t).
  assert (scaleToIntensity p_ref B t = Ok (scaled p_ref B t)) as Hs
    by now apply scaleToIntensity_ok.
  split; [exact Hs|].
  unfold scaleToIntensity at 1.
  rewrite (measure_scaled p_ref B t _ Hp Hs). cbn [rbind].
  rewrite gain_same, map_mult_1. now destruct (scaled p_ref B t).
Qed.

Lemma sum_sq_zero_iff xs : sum_sq xs = 0 <-> Forall (fun x => x = 0) xs.
Proof.
  induction xs as [|x xs IH]; cbn [sum_sq fold_right].
  - split; [constructor|reflexivity].
  - fold (sum_sq xs). pose proof (sum_sq_nonneg xs) as Hs. split.
    + intros H. assert (x = 0) by nra. constructor; [assumption|].
      apply IH. nra.
    + intros H. apply Forall_cons in H as [-> H]. apply IH in H. lra.
Qed.

Lemma rms_zero_iff b : rms b = 0 <-> Forall (fun x => x = 0) (values b).
Proof.
  unfold rms, n_samples. split.
  - intros H. apply sqrt_eq_0 in H; [|apply mean_sq_nonneg].
    destruct (values b) as [|x xs] eqn:E; [constructor|].
    apply sum_sq_zero_iff.
    assert (0 < INR (length (x :: xs))) as Hn by (apply lt_0_INR; cbn; lia).
    unfold Rdiv in H. apply Rmult_integral in H as [H|H]; [exact H|].
    pose proof (Rinv_0_lt_compat _ Hn). lra.
  - intros H. apply sum_sq_zero_iff in H. rewrite H.
    unfold Rdiv. rewrite Rmult_0_l. apply sqrt_0.
Qed.

Lemma rms_square b :
  rms b * rms b * INR (n_samples b) = sum_sq (values b).
Proof.
  unfold rms. rewrite sqrt_sqrt by apply mean_sq_nonneg.
  unfold n_samples. destruct (values b) as [|x xs]; [cbn; lra|].
  assert (0 < INR (length (x :: xs))) as Hn by (apply lt_0_INR; cbn; lia).
  field. lra.
Qed.

Lemma sum_sq_constant a xs :
  Forall (fun x => x = a \/ x = - a) xs ->
  sum_sq xs = INR (length xs) * (a * a).
Proof.
  induction 1 as [|x xs Hx _ IH]; [cbn; ring|].
  cbn [sum_sq fold_right]. fold (sum_sq xs). rewrite IH.
  change (length (x :: xs)) with (S (length xs)). rewrite S_INR.
  destruct Hx as [-> | ->]; ring.
Qed.

Lemma rms_constant a b :
  values b <> [] ->
  Forall (fun x => x = a \/ x = - a) (values b) ->
  rms b = Rabs a.
Proof.
  intros Hne H. unfold rms, n_samples. rewrite (sum_sq_constant a _ H).
  assert (0 < INR (length (values b))) as Hn.
  { apply lt_0_INR. destruct (values b); [contradiction|cbn; lia]. }
  replace (INR (length (values b)) * (a * a) / INR (length (values b)))
    with (Rsqr a) by (unfold Rsqr; field; lra).
  apply sqrt_Rsqr_abs.
Qed.

Lemma decibels_iff p_ref r d :
  0 < p_ref -> 0 < r ->
  d = 20 * log10 (r / p_ref) <-> p_ref * Rpower 10 (d / 20) = r.
Proof.
  intros Hp Hr. pose proof ln10_pos as Hl.
  assert (0 < r / p_ref) as Hq by now apply Rdiv_lt_0_compat.
  split.
  - intros ->. unfold log10, Rpower.
    replace (20 * (ln (r / p_ref) / ln 10) / 20 * ln 10) with (ln (r / p_ref))
      by (field; lra).
    rewrite exp_ln by assumption. field. lra.
  - intros <-. unfold log10.
    replace (p_ref * Rpower 10 (d / 20) / p_ref) with (Rpower 10 (d / 20))
      by (field; lra).
    unfold Rpower. rewrite ln_exp. field. lra.
Qed.

(** C7.  [measureIntensity] is about the root mean square of the samples:
    a nonnegative number whose square times the number of samples is the
    sum of the squared samples, so the amplitude itself for a signal of
    constant magnitude, and zero exactly when every sample is zero.  It
    raises SilentBufferError exactly when that RMS is zero and returns no
    value then; otherwise it returns the number of decibels [d] by which
    the RMS exceeds the reference constant, [p_ref * 10^(d/20) = rms]. *)
Theorem measureIntensity_silent_iff p_ref (B : Sound) :
  0 < p_ref ->
  (0 <= rms B /\
   rms B * rms B * INR (length (values B))
   = fold_right (fun x acc => x * x + acc) 0 (values B)) /\
  (forall a, values B <> [] ->
             Forall (fun x => x = a \/ x = - a) (values B) ->
             rms B = Rabs a) /\
  (rms B = 0 <-> Forall (fun x => x = 0) (values B)) /\
  (measureIntensity p_ref B = Raise SilentBufferError <-> rms B = 0) /\
  (forall d, measureIntensity p_ref B = Ok d <->
             rms B <> 0 /\ d = 20 * (ln (rms B / p_ref) / ln 10)) /\
  (forall d, measureIntensity p_ref B = Ok d <->
             rms B <> 0 /\ p_ref * Rpower 10 (d / 20) = rms B).
Proof.
  intros Hp.
  split; [split; [apply rms_nonneg|apply rms_square]|].
  split; [intros a; apply rms_constant|].
  split; [apply rms_zero_iff|].
  split; [split|].
  - unfold measureIntensity. now destruct (Req_dec_T (rms B) 0).
  - apply measureIntensity_silent.
  - split; intros d; split.
    + apply measureIntensity_inv.
    + intros [Hz ->]. now apply measureIntensity_ok.
    + intros H. apply measureIntensity_inv in H as [Hz ->]. split; [exact Hz|].
      apply decibels_iff; [exact Hp|now apply rms_pos|reflexivity].
    + intros [Hz H]. rewrite measureIntensity_ok by exact Hz. f_equal.
      symmetry. apply decibels_iff; [exact Hp|now apply rms_pos|exact H].
Qed.

(** ** TrialNaming *)

Lemma append_nil t : EmptyString +:+ t = t.
Proof. reflexivity. Qed.

Lemma append_cons a s t : String a s +:+ t = String a (s +:+ t).
Proof. reflexivity. Qed.

Lemma length_append s1 s2 :
  String.length (s1 +:+ s2) = (String.length s1 + String.length s2)%nat.
Proof.
  induction s1 as [|a s1 IH]; [reflexivity|].
  rewrite append_cons. cbn [String.length]. now rewrite IH.
Qed.

Lemma append_assoc s1 s2 s3 : (s1 +:+ s2) +:+ s3 = s1 +:+ (s2 +:+ s3).
Proof.
  induction s1 as [|a s1 IH]; [reflexivity|].
  rewrite !append_cons. now rewrite IH.
Qed.

Lemma append_inj_r s1 s2 t : s1 +:+ t = s2 +:+ t -> s1 = s2.
Proof.
  revert s2. induction s1 as [|a s1 IH]; intros [|b s2] H.
  - reflexivity.
  - apply (f_equal String.length) in H. rewrite !length_append in H.
    cbn [String.length] in H. lia.
  - apply (f_equal String.length) in H. rewrite !length_append in H.
    cbn [String.length] in H. lia.
  - rewrite !append_cons in H. injection H as -> H. f_equal. now apply IH.
Qed.

Lemma to_int_nonnil n : Z.to_int n <> Decimal.Pos Decimal.Nil /\
                        Z.to_int n <> Decimal.Neg Decimal.Nil.
Proof.
  destruct n as [|p|p]; cbn; split; try discriminate;
    intros [= H]; exact (Unsigned.to_uint_nonnil p H).
Qed.

Lemma str_inj n m : str n = str m -> n = m.
Proof.
  unfold str. intros H. apply to_int_inj.
  destruct (to_int_nonnil n) as [Hn1 Hn2], (to_int_nonnil m) as [Hm1 Hm2].
  pose proof (NilZero.isi _ Hn1 Hn2) as En.
  pose proof (NilZero.isi _ Hm1 Hm2) as Em.
  rewrite H in En. congruence.
Qed.

(** C6.  The file name is [base], "_stimulus_", the decimal digits of the
    trial index and ".wav"; it depends on nothing else, and under one base
    name two trial indices give the same name only when they are equal. *)
Theorem stimulus_file_name_unique (baseName : string) (i j : Z) :
  stimulus_file_name baseName i
    = baseName +:+ "_stimulus_" +:+ str i +:+ ".wav" /\
  (stimulus_file_name baseName i = stimulus_file_name baseName j <-> i = j).
Proof.
  split.
  - unfold stimulus_file_name. now rewrite !append_assoc.
  - split; [|now intros ->].
    unfold stimulus_file_name. intros H.
    apply append_inj_r in H. apply String.app_inj in H.
    now apply str_inj.
Qed.

(** The name of the file the notebook plays back, and the two names of the
    specification's example. *)
Example stimulus_file_name_notebook :
  stimulus_file_name "data/participant_staircase_23032017" 5
  = "data/participant_staircase_23032017_stimulus_5.wav".
Proof. reflexivity. Qed.

Example stimulus_file_name_p1 :
  stimulus_file_name "p1" 3 = "p1_stimulus_3.wav" /\
  stimulus_file_name "p1" 4 = "p1_stimulus_4.wav".
Proof. split; reflexivity. Qed.

(** ** Resampler *)

(** What the specification fixes of [resample]: the rate of the result, and
    the result at the rate the sound already has.  The number of samples at
    a new rate is the interpolation's and is not fixed by it. *)
Lemma resampled_rate interpolate b targetRate :
  sampling_frequency (resampled interpolate b targetRate) = targetRate.
Proof.
  unfold resampled. destruct (Req_dec_T _ _) as [E|_]; [now rewrite E|reflexivity].
Qed.

Lemma resampled_same_rate interpolate b :
  resampled interpolate b (sampling_frequency b) = b.
Proof.
  unfold resampled. now destruct (Req_dec_T _ _).
Qed.

(** ** The condition library is a frame of every trial *)

Lemma frames_bind {A B} (m : M A) (k : A -> M B) :
  frames m -> (forall a, frames (k a)) -> frames (x <- m ;; k x).
Proof.
  intros Hm Hk w. unfold bind.
  destruct (Hm w) as [Hs Hh]. destruct (m w) as [[a|e] w'] eqn:E; wsimpl.
  - destruct (Hk a w') as [Hs' Hh']. split.
    + now rewrite Hs'.
    + intros l s Hl. now apply Hh', Hh.
  - now split.
Qed.

Lemma frames_ret {A} (a : A) : frames (ret a).
Proof. intros w. now split. Qed.

Lemma frames_for_each {A} (xs : list A) (body : A -> M unit) :
  (forall x, frames (body x)) -> frames (for_each xs body).
Proof.
  intros Hb. induction xs as [|x xs IH]; cbn [for_each].
  - apply frames_ret.
  - apply frames_bind; [apply Hb|]. intros _. exact IH.
Qed.

Lemma frames_press k : frames (press k).
Proof. intros w. now split. Qed.

Lemma frames_end_routine : frames end_routine.
Proof.
  intros w. unfold end_routine, read, bind, addResponse, print, modify.
  destruct (keys w); [|now split]. destruct (random_condition w); now split.
Qed.

Lemma noisy_at_keeps c ref s w l x :
  heap w !! l = Some x -> heap (noisy_at c ref s w) !! l = Some x.
Proof. intros Hl. rewrite noisy_at_old; [exact Hl|]. rewrite Hl. eauto. Qed.

Lemma frames_begin_routine p_ref interpolate :
  frames (begin_routine p_ref interpolate).
Proof.
  intros w.
  destruct (begin_routine_outcome p_ref interpolate w); wsimpl;
    (split; [reflexivity|]); intros l' s' Hl'; try exact Hl';
    try now apply noisy_at_keeps.
  - unfold routine_unsaved. wsimpl.
    rewrite lookup_alloc_old.
    + now apply noisy_at_keeps.
    + rewrite (noisy_at_keeps _ _ _ _ _ _ Hl'). eauto.
  - unfold routine_done. wsimpl.
    rewrite lookup_alloc_old.
    + now apply noisy_at_keeps.
    + rewrite (noisy_at_keeps _ _ _ _ _ _ Hl'). eauto.
Qed.

(** C8.  Running the per-trial code, once or over any number of trials,
    leaves the condition library as it was: the dictionary [stimuli] is
    the same, and every sound object alive before the run, so every
    reference buffer of the library, has the samples and the sampling
    frequency it had; what Begin Routine writes, it writes to objects
    created during the run. *)
Theorem trials_leave_library_unchanged p_ref interpolate
    (answers : list string) (w : World) :
  let after_routine := snd (begin_routine p_ref interpolate w) in
  let after_session := snd (session p_ref interpolate answers w) in
  (stimuli after_routine = stimuli w /\
   forall l s, heap w !! l = Some s -> heap after_routine !! l = Some s) /\
  (stimuli after_session = stimuli w /\
   forall l s, heap w !! l = Some s -> heap after_session !! l = Some s) /\
  (forall c l ref,
     stimuli w !! c = Some l -> heap w !! l = Some ref ->
     stimuli after_session !! c = Some l /\ heap after_session !! l = Some ref).
Proof.
  assert (frames (session p_ref interpolate answers)) as Hf.
  { apply frames_for_each. intros k. unfold trial.
    apply frames_bind; [apply frames_begin_routine|]. intros _.
    apply frames_bind; [apply frames_press|]. intros _.
    apply frames_end_routine. }
  cbv zeta. split; [apply frames_begin_routine|].
  destruct (Hf w) as [Hs Hh]. split; [now split|].
  intros c l ref Hc Hl. rewrite Hs. split; [exact Hc|now apply Hh].
Qed.

(** ** The answer reported to the staircase *)

Lemma end_routine_run w k c :
  keys w = Some k -> random_condition w = Some c ->
  end_routine w = addResponse (String.eqb k c) w.
Proof.
  intros Hk Hc. unfold end_routine, read, bind. now rewrite Hk, Hc.
Qed.

Lemma begin_routine_Ok_inv p_ref interpolate w w1 :
  begin_routine p_ref interpolate w = (Ok tt, w1) ->
  exists c l ref,
    fst (choice conditions (py_random w)) = Ok c /\
    stimuli w !! c = Some l /\ heap w !! l = Some ref /\
    w1 = routine_done p_ref interpolate c ref w.
Proof.
  intros H. destruct (begin_routine_outcome p_ref interpolate w)
    as [| | | | |c l ref Hin Hc Hs Hh Hz Hm Hw]; try discriminate.
  injection H as <-. now exists c, l, ref.
Qed.

(** C10.  The boolean handed to [trials.addResponse] at the end of a trial
    is true exactly when the key pressed equals the condition that
    [random.choice] drew in Begin Routine; it is the same in any two states
    that agree on the key and on the condition. *)
Theorem end_routine_reports p_ref interpolate (w w1 : World) (k : string) :
  begin_routine p_ref interpolate w = (Ok tt, w1) ->
  exists (c : string) (response : bool),
    fst (choice conditions (py_random w)) = Ok c /\
    random_condition w1 = Some c /\
    (response = true <-> k = c) /\
    trial p_ref interpolate k w = addResponse response (set_keys (Some k) w1) /\
    forall w2, keys w2 = Some k -> random_condition w2 = Some c ->
               end_routine w2 = addResponse response w2.
Proof.
  intros H. destruct (begin_routine_Ok_inv _ _ _ _ H) as (c & l & ref & Hc & _ & _ & ->).
  exists c, (String.eqb k c). repeat split.
  - exact Hc.
  - apply String.eqb_eq.
  - apply String.eqb_eq.
  - unfold trial. rewrite (bind_Ok _ _ _ _ _ H).
    unfold press. rewrite bind_modify. now apply end_routine_run.
  - intros w2 Hk Hr. now apply end_routine_run.
Qed.

(** ** A buffer with a nonzero sample is not silent *)

Lemma sum_sq_pos x xs : In x xs -> x <> 0 -> 0 < sum_sq xs.
Proof.
  induction xs as [|y ys IH]; intros Hin Hx; [destruct Hin|].
  cbn [sum_sq fold_right]. fold (sum_sq ys).
  pose proof (sum_sq_nonneg ys). destruct Hin as [->|Hin].
  - assert (0 < x * x) by nra. lra.
  - specialize (IH Hin Hx). nra.
Qed.

Lemma rms_nonzero x s : In x (values s) -> x <> 0 -> rms s <> 0.
Proof.
  intros Hin Hx. unfold rms, n_samples.
  assert (0 < sum_sq (values s)) as Hs by exact (sum_sq_pos x _ Hin Hx).
  assert (0 < INR (length (values s))) as Hn.
  { apply lt_0_INR. destruct (values s); [destruct Hin|cbn; lia]. }
  assert (0 < sum_sq (values s) / INR (length (values s))) as Hq
    by now apply Rdiv_lt_0_compat.
  pose proof (sqrt_lt_R0 _ Hq). lra.
Qed.

(** ** StimulusSynthesizer *)

(** C1.  Begin Routine, on a reference sound normalised to the standard
    intensity, produces what the steps of the specification produce:
    noise of the reference's sample count and sampling frequency, scaled to
    the standard intensity minus the level, so that the reference's
    intensity exceeds the noise's by exactly the level; the reference and
    the noise added sample by sample; and the sum scaled to the standard
    intensity.  The buffer is produced whether or not the file can then be
    written; the routine ends well exactly when it can. *)
Theorem begin_routine_synthesizes p_ref interpolate (w : World)
    (c : string) (l : loc) (ref : Sound) :
  0 < p_ref ->
  fst (choice conditions (py_random w)) = Ok c ->
  stimuli w !! c = Some l ->
  heap w !! l = Some ref ->
  measureIntensity p_ref ref = Ok STANDARD_INTENSITY ->
  let N := generate (n_samples ref) (sampling_frequency ref) (np_random w) in
  let run := begin_routine p_ref interpolate w in
  match synthesize p_ref ref (level w) STANDARD_INTENSITY (np_random w) with
  | Ok out =>
      produced (snd run) = Some out /\
      fst run = if writable w (stimulus_file_name (filename w) (thisTrialN w))
                then Ok tt else Raise IOWriteError
  | Raise e => fst run = Raise e
  end /\
  n_samples N = n_samples ref /\
  sampling_frequency N = sampling_frequency ref /\
  forall N',
    scaleToIntensity p_ref N (STANDARD_INTENSITY - level w) = Ok N' ->
    (exists dR dN,
       measureIntensity p_ref ref = Ok dR /\
       measureIntensity p_ref N' = Ok dN /\
       dN = STANDARD_INTENSITY - level w /\
       dR - dN = level w) /\
    exists M',
      mix ref N' = Ok M' /\
      n_samples M' = n_samples ref /\
      sampling_frequency M' = sampling_frequency ref /\
      (forall i r n,
         values ref !! i = Some r -> values N' !! i = Some n ->
         values M' !! i = Some (r + n)) /\
      synthesize p_ref ref (level w) STANDARD_INTENSITY (np_random w)
        = scaleToIntensity p_ref M' STANDARD_INTENSITY /\
      forall out,
        scaleToIntensity p_ref M' STANDARD_INTENSITY = Ok out ->
        measureIntensity p_ref out = Ok STANDARD_INTENSITY.
Proof.
  intros Hp Hc Hs Hh Hstd N run.
  split; [|split; [|split]].
  - pose proof (begin_routine_refines p_ref interpolate w) as Hr.
    unfold routine_output in Hr. rewrite Hc in Hr. cbn [rbind] in Hr.
    unfold getitem in Hr. rewrite Hs in Hr. cbn [rbind] in Hr.
    now rewrite Hh in Hr.
  - unfold N, generate, n_samples. cbn [values]. apply length_normal.
  - reflexivity.
  - intros N' HN'. split.
    + exists STANDARD_INTENSITY, (STANDARD_INTENSITY - level w).
      repeat split; [exact Hstd| |ring].
      exact (measure_scaled _ _ _ _ Hp HN').
    + apply scaleToIntensity_inv in HN' as HN. destruct HN as [Hz HN].
      fold (scaled p_ref N (STANDARD_INTENSITY - level w)) in HN.
      change N with (noise0 ref w) in HN, Hz.
      fold (noise1 p_ref ref w) in HN. subst N'.
      exists (noise2 p_ref ref w).
      split; [apply mix_noise1|]. split; [|split; [|split; [|split]]].
      * unfold noise2, n_samples. cbn [values].
        rewrite length_zip_with.
        pose proof (noise1_length p_ref ref w) as Hl. unfold n_samples in Hl.
        lia.
      * reflexivity.
      * intros i r n Hr Hn. unfold noise2. cbn [values].
        rewrite lookup_zip_with, Hn. cbn. rewrite Hr. cbn. f_equal. ring.
      * unfold synthesize. rewrite generate_noise0.
        rewrite scaleToIntensity_ok by assumption. cbn [rbind].
        fold (scaled p_ref (noise0 ref w) (STANDARD_INTENSITY - level w)).
        fold (noise1 p_ref ref w). now rewrite mix_noise1.
      * intros out Hout. exact (measure_scaled _ _ _ _ Hp Hout).
Qed.

(** ** Reproducibility *)



(** ** Mixing *)







(** ** The cells run on the small session *)

Import Example.

Lemma recording_audible : rms recording <> 0.
Proof. apply (rms_nonzero 1); [now left|lra]. Qed.

Lemma reference_scaled :
  scaleToIntensity 1 recording STANDARD_INTENSITY = Ok reference.
Proof. apply scaleToIntensity_ok, recording_audible. Qed.

Lemma reference_standard :
  measureIntensity 1 reference = Ok STANDARD_INTENSITY.
Proof. apply (measure_scaled 1 recording); [lra|apply reference_scaled]. Qed.

Lemma draw_a :
  choice conditions (py_random world_a)
  = (Ok "a", fun i => py_random world_a (S i)).
Proof. reflexivity. Qed.

Lemma noise0_a : noise0 reference world_a = mkSound [1; 0] 22050.
Proof. reflexivity. Qed.

Lemma noise0_b : noise0 reference world_b = mkSound [0; 1] 22050.
Proof. reflexivity. Qed.

Lemma noise0_a_audible : rms (noise0 reference world_a) <> 0.
Proof. rewrite noise0_a. apply (rms_nonzero 1); [now left|lra]. Qed.

Lemma noise0_b_audible : rms (noise0 reference world_b) <> 0.
Proof. rewrite noise0_b. apply (rms_nonzero 1); [right; now left|lra]. Qed.

Lemma noise2_a_audible : rms (noise2 1 reference world_a) <> 0.
Proof.
  eapply rms_nonzero; [left; reflexivity|].
  match goal with |- _ * gain ?a ?b + _ * gain ?c ?d <> 0 =>
    pose proof (gain_pos a b); pose proof (gain_pos c d);
    change (1 * gain a b + 1 * gain c d <> 0); lra end.
Qed.

Lemma noise2_b_audible : rms (noise2 1 reference world_b) <> 0.
Proof.
  eapply rms_nonzero; [left; reflexivity|].
  match goal with |- _ * gain ?a ?b + _ * gain ?c ?d <> 0 =>
    pose proof (gain_pos a b); pose proof (gain_pos c d);
    change (0 * gain a b + 1 * gain c d <> 0); lra end.
Qed.

Lemma run_a :
  begin_routine 1 interpolation world_a
  = (Ok tt, routine_done 1 interpolation "a" reference world_a).
Proof.
  apply (begin_routine_ok 1 interpolation world_a "a" 0%nat reference);
    [reflexivity|reflexivity|reflexivity| | |reflexivity].
  - apply noise0_a_audible.
  - apply noise2_a_audible.
Qed.

Lemma run_b :
  begin_routine 1 interpolation world_b
  = (Ok tt, routine_done 1 interpolation "a" reference world_b).
Proof.
  apply (begin_routine_ok 1 interpolation world_b "a" 0%nat reference);
    [reflexivity|reflexivity|reflexivity| | |reflexivity].
  - apply noise0_b_audible.
  - apply noise2_b_audible.
Qed.

(** What the notebook prints and saves for this trial when the participant
    presses "a". *)
Example trial_a_trace :
  fst (trial 1 interpolation "a" world_a) = Ok tt /\
  trace (snd (trial 1 interpolation "a" world_a))
  = [Saved "data/participant_staircase_23032017_stimulus_5.wav"
           (resampled interpolation (noise3 1 reference world_a) 44100);
     Printed "Setting audio file of Sound component to 'data/participant_staircase_23032017_stimulus_5.wav'";
     Printed "Registering that this trial was successful"].
Proof.
  unfold trial. rewrite (bind_Ok _ _ _ _ _ run_a).
  unfold press. rewrite bind_modify.
  rewrite (end_routine_run _ "a" "a") by reflexivity.
  split; reflexivity.
Qed.

(** And when the answer is "e". *)
Example trial_e_trace :
  last (trace (snd (trial 1 interpolation "e" world_a)))
  = Some (Printed "Registering that this trial was unsuccessful").
Proof.
  unfold trial. rewrite (bind_Ok _ _ _ _ _ run_a).
  unfold press. rewrite bind_modify.
  rewrite (end_routine_run _ "e" "a") by reflexivity.
  reflexivity.
Qed.

(** Without a directory to write to, the routine stops at the save: the
    buffer is produced, nothing is saved and the Sound component is not
    set. *)
Example run_read_only :
  begin_routine 1 interpolation Studio.read_only
  = (Raise IOWriteError,
     routine_unsaved 1 interpolation "a" reference Studio.read_only) /\
  produced (snd (begin_routine 1 interpolation Studio.read_only))
  = Some (noise3 1 reference Studio.read_only) /\
  trace (snd (begin_routine 1 interpolation Studio.read_only)) = [].
Proof.
  assert (begin_routine 1 interpolation Studio.read_only
          = (Raise IOWriteError,
             routine_unsaved 1 interpolation "a" reference Studio.read_only))
    as E.
  { apply (begin_routine_unwritable 1 interpolation _ "a" 0%nat reference);
      [reflexivity|reflexivity|reflexivity| | |reflexivity].
    - apply noise0_a_audible.
    - apply noise2_a_audible. }
  rewrite E. split; [reflexivity|]. split; [|reflexivity].
  apply produced_routine_unsaved.
Qed.

(** Two sounds without samples cannot be mixed. *)
Example mix_empty :
  values_iadd 0%nat 1%nat
    (set_heap (<[0%nat := mkSound [] 44100]> (<[1%nat := mkSound [] 44100]> ∅))
              world_a)
  = (Raise IndexError,
     set_heap (<[0%nat := mkSound [] 44100]> (<[1%nat := mkSound [] 44100]> ∅))
              world_a).
Proof.
  apply (values_iadd_empty _ _ (mkSound [] 44100) (mkSound [] 44100));
    [reflexivity|reflexivity|now left].
Qed.

(** ** Where the notebook departs from the specification *)



(** ** The theorems at the small session *)

Lemma scaleToIntensity_reaches_target_witness :
  0 < 1 /\ rms recording <> 0 /\
  exists cur B',
    measureIntensity 1 recording = Ok cur /\
    scaleToIntensity 1 recording 70 = Ok B' /\
    values B' = map (fun x => x * Rpower 10 ((70 - cur) / 20)) (values recording) /\
    sampling_frequency B' = sampling_frequency recording /\
    exists d, measureIntensity 1 B' = Ok d /\ Rabs (d - 70) <= 1 / 100.
Proof.
  split; [lra|]. split; [apply recording_audible|].
  apply (scaleToIntensity_reaches_target 1 recording 70);
    [lra|apply recording_audible].
Defined.

Lemma measureIntensity_silent_iff_witness :
  0 < 1 /\
  rms (mkSound [3; -3] 22050) = Rabs 3 /\
  (rms (mkSound [3; -3] 22050) = 0 <->
   Forall (fun x => x = 0) (values (mkSound [3; -3] 22050))) /\
  (measureIntensity 1 (mkSound [3; -3] 22050) = Raise SilentBufferError <->
   rms (mkSound [3; -3] 22050) = 0).
Proof.
  split; [lra|].
  destruct (measureIntensity_silent_iff 1 (mkSound [3; -3] 22050))
    as (_ & Hc & Hz & Hs & _); [lra|].
  split; [|now split].
  apply Hc; [discriminate|].
  constructor; [now left|]. constructor; [now right|]. constructor.
Defined.

Lemma scaleToIntensity_idempotent_witness :
  0 < 1 /\ rms recording <> 0 /\
  exists B',
    scaleToIntensity 1 recording 70 = Ok B' /\
    scaleToIntensity 1 B' 70 = Ok B'.
Proof.
  split; [lra|]. split; [apply recording_audible|].
  apply (scaleToIntensity_idempotent 1 recording 70);
    [lra|apply recording_audible].
Defined.

Lemma begin_routine_synthesizes_witness :
  0 < 1 /\
  fst (choice conditions (py_random world_a)) = Ok "a" /\
  stimuli world_a !! "a" = Some 0%nat /\
  heap world_a !! 0%nat = Some reference /\
  measureIntensity 1 reference = Ok STANDARD_INTENSITY /\
  match synthesize 1 reference (level world_a) STANDARD_INTENSITY
                   (np_random world_a) with
  | Ok out =>
      produced (snd (begin_routine 1 interpolation world_a)) = Some out /\
      fst (begin_routine 1 interpolation world_a)
      = if writable world_a
             (stimulus_file_name (filename world_a) (thisTrialN world_a))
        then Ok tt else Raise IOWriteError
  | Raise e => fst (begin_routine 1 interpolation world_a) = Raise e
  end.
Proof.
  split; [lra|]. split; [reflexivity|]. split; [reflexivity|].
  split; [reflexivity|]. split; [apply reference_standard|].
  apply (begin_routine_synthesizes 1 interpolation world_a "a" 0%nat reference);
    [lra|reflexivity|reflexivity|reflexivity|apply reference_standard].
Defined.


Lemma end_routine_reports_witness :
  begin_routine 1 interpolation world_a
  = (Ok tt, routine_done 1 interpolation "a" reference world_a) /\
  exists (c : string) (response : bool),
    fst (choice conditions (py_random world_a)) = Ok c /\
    random_condition (routine_done 1 interpolation "a" reference world_a) = Some c /\
    (response = true <-> "a" = c) /\
    trial 1 interpolation "a" world_a
    = addResponse response
        (set_keys (Some "a") (routine_done 1 interpolation "a" reference world_a)) /\
    forall w2, keys w2 = Some "a" -> random_condition w2 = Some c ->
               end_routine w2 = addResponse response w2.
Proof.
  split; [apply run_a|].
  apply (end_routine_reports 1 interpolation world_a _ "a"), run_a.
Defined.


Lemma trials_leave_library_unchanged_witness :
  stimuli world_a !! "a" = Some 0%nat /\
  heap world_a !! 0%nat = Some reference /\
  stimuli (snd (session 1 interpolation ["a"; "e"; "a"] world_a)) !! "a"
    = Some 0%nat /\
  heap (snd (session 1 interpolation ["a"; "e"; "a"] world_a)) !! 0%nat
    = Some reference.
Proof.
  split; [reflexivity|]. split; [reflexivity|].
  destruct (trials_leave_library_unchanged 1 interpolation ["a"; "e"; "a"] world_a)
    as (_ & _ & H).
  apply (H "a" 0%nat reference); reflexivity.
Defined.

(** * Further properties of the cells *)

(** ** File names across participants *)

Lemma free_of_append c s t : free_of c (s +:+ t) -> free_of c t.
Proof.
  induction s as [|a s IH]; [now rewrite append_nil|].
  rewrite append_cons. cbn [free_of]. intros [_ H]. now apply IH.
Qed.

Lemma split_at_last c s1 s2 d1 d2 :
  free_of c d1 -> free_of c d2 ->
  s1 +:+ String c d1 = s2 +:+ String c d2 ->
  s1 = s2 /\ d1 = d2.
Proof.
  intros H1 H2. revert s2.
  induction s1 as [|a s1 IH]; intros [|b s2];
    rewrite ?append_nil, ?append_cons; intros E.
  - now injection E.
  - injection E as -> E. subst d1.
    apply free_of_append in H1. cbn [free_of] in H1. now destruct H1.
  - injection E as -> E. subst d2.
    apply free_of_append in H2. cbn [free_of] in H2. now destruct H2.
  - injection E as -> E. destruct (IH s2 E) as [-> ->]. now split.
Qed.

Lemma digits_free_of_underscore d :
  free_of "_"%char (NilEmpty.string_of_uint d).
Proof.
  induction d; cbn [NilEmpty.string_of_uint free_of];
    try exact I; (split; [discriminate|assumption]).
Qed.

Lemma str_free_of_underscore n : free_of "_"%char (str n).
Proof.
  unfold str, NilZero.string_of_int, NilZero.string_of_uint.
  destruct (Z.to_int n) as [d|d]; destruct d;
    cbn [free_of]; repeat split; try discriminate;
    try apply digits_free_of_underscore;
    try (apply (digits_free_of_underscore (Decimal.D0 _)))
  .
Qed.

Lemma file_name_inj (base1 base2 : string) (i j : Z) :
  stimulus_file_name base1 i = stimulus_file_name base2 j ->
  base1 = base2 /\ i = j.
Proof.
  unfold stimulus_file_name. intros H. apply append_inj_r in H.
  change "_stimulus_" with ("_stimulus" +:+ "_") in H.
  rewrite <- !append_assoc in H.
  rewrite !(append_assoc _ "_" (str _)) in H.
  change ("_" +:+ str i) with (String "_" (str i)) in H.
  change ("_" +:+ str j) with (String "_" (str j)) in H.
  apply split_at_last in H as [Hb Hs]; try apply str_free_of_underscore.
  split; [now apply append_inj_r in Hb|now apply str_inj].
Qed.

(** X1.  The file name determines both the base name and the trial index:
    two trials get the same file name only when both agree, so names never
    collide across participants or sessions either. *)
Theorem stimulus_file_name_injective (base1 base2 : string) (i j : Z) :
  stimulus_file_name base1 i = stimulus_file_name base2 j <->
  base1 = base2 /\ i = j.
Proof.
  split; [apply file_name_inj|now intros [-> ->]].
Qed.

(** ** What Begin Routine touches *)

(** X2.  In every run of Begin Routine, failed or not, the level, the base
    file name, the trial number, the key and the library dictionary are
    left as they were; the condition recorded is the one drawn and is one
    of [conditions]; the random module has advanced by exactly one draw;
    and unless the run succeeds, nothing is printed or saved. *)
Theorem begin_routine_footprint p_ref interpolate (w : World) :
  let run := begin_routine p_ref interpolate w in
  level (snd run) = level w /\
  filename (snd run) = filename w /\
  thisTrialN (snd run) = thisTrialN w /\
  keys (snd run) = keys w /\
  stimuli (snd run) = stimuli w /\
  (exists c, c ∈ conditions /\
             fst (choice conditions (py_random w)) = Ok c /\
             random_condition (snd run) = Some c) /\
  (forall i, py_random (snd run) i = py_random w (S i)) /\
  (fst run = Ok tt \/ trace (snd run) = trace w).
Proof.
  cbv zeta.
  destruct (begin_routine_outcome p_ref interpolate w)
    as [c Hin Hc Hs|c l Hin Hc Hs Hh|c l ref Hin Hc Hs Hh Hz
       |c l ref Hin Hc Hs Hh Hz Hm|c l ref Hin Hc Hs Hh Hz Hm Hw
       |c l ref Hin Hc Hs Hh Hz Hm Hw];
    cbn [fst snd];
    (repeat (split; [reflexivity|]));
    (split; [now exists c|]);
    (split; [reflexivity|]);
    solve [right; reflexivity | left; reflexivity].
Qed.

(** X3.  When [stimuli] is bound but the condition drawn is not one of its
    keys, as after a Begin Experiment that failed while loading, Begin
    Routine raises KeyError for that condition before anything is
    synthesised: no object is created, NumPy's generator is not advanced,
    [noisy_stimulus] is not rebound and nothing is printed or saved. *)
Theorem begin_routine_missing_condition p_ref interpolate (w : World)
    (c : string) :
  fst (choice conditions (py_random w)) = Ok c ->
  stimuli w !! c = None ->
  let run := begin_routine p_ref interpolate w in
  fst run = Raise (KeyError c) /\
  heap (snd run) = heap w /\
  np_random (snd run) = np_random w /\
  noisy_stimulus (snd run) = noisy_stimulus w /\
  trace (snd run) = trace w /\
  random_condition (snd run) = Some c.
Proof.
  intros Hc Hs.
  destruct (choice_conditions (py_random w)) as (c' & Hc' & _).
  assert (c' = c) as -> by (rewrite Hc' in Hc; now injection Hc).
  cbv zeta. rewrite (begin_routine_KeyError p_ref interpolate w c Hc' Hs).
  repeat split.
Qed.

(** X4.  A successful Begin Routine appends exactly two events: the file
    saved under the name built from [filename] and [thisTrialN], holding
    the produced buffer resampled to 44100 Hz, and the line by which the
    Sound component is pointed at that very file. *)
Theorem begin_routine_saves_then_sets p_ref interpolate (w w' : World) :
  begin_routine p_ref interpolate w = (Ok tt, w') ->
  exists out,
    produced w' = Some out /\
    sampling_frequency (resampled interpolate out 44100) = 44100 /\
    trace w' =
      trace w ++
      [Saved (stimulus_file_name (filename w) (thisTrialN w))
             (resampled interpolate out 44100);
       Printed ("Setting audio file of Sound component to '"
                +:+ stimulus_file_name (filename w) (thisTrialN w) +:+ "'")].
Proof.
  intros H.
  destruct (begin_routine_Ok_inv _ _ _ _ H) as (c & l & ref & _ & _ & _ & ->).
  exists (noise3 p_ref ref w). split; [apply produced_routine_done|].
  split; [apply resampled_rate|reflexivity].
Qed.

(** X5.  A successful Begin Routine takes exactly as many deviates from
    NumPy's generator as the chosen reference has samples: the produced
    buffer has that many samples and the reference's sampling frequency,
    and the generator is left at the deviate after the last one used, so
    the next trial's noise starts there. *)
Theorem begin_routine_consumes p_ref interpolate (w w' : World) :
  begin_routine p_ref interpolate w = (Ok tt, w') ->
  exists c l ref out,
    fst (choice conditions (py_random w)) = Ok c /\
    stimuli w !! c = Some l /\
    heap w !! l = Some ref /\
    produced w' = Some out /\
    n_samples out = n_samples ref /\
    sampling_frequency out = sampling_frequency ref /\
    (forall i, np_random w' i = np_random w (n_samples ref + i)%nat) /\
    forall ref',
      values (noise0 ref' w')
      = map (fun i => np_random w (n_samples ref + i)%nat)
            (seq 0 (n_samples ref')).
Proof.
  intros H.
  destruct (begin_routine_Ok_inv _ _ _ _ H) as (c & l & ref & Hc & Hs & Hh & ->).
  exists c, l, ref, (noise3 p_ref ref w).
  repeat (split; [assumption|]).
  split; [apply produced_routine_done|].
  split.
  { unfold noise3. rewrite scaled_length. unfold noise2, n_samples.
    cbn [values]. rewrite length_zip_with.
    pose proof (noise1_length p_ref ref w) as Hl. unfold n_samples in Hl. lia. }
  repeat split.
Qed.

(** X6.  Whatever the level and whatever the intensity of the reference,
    the buffer a successful Begin Routine produces measures the standard
    intensity. *)
Theorem begin_routine_standard_loudness p_ref interpolate (w w' : World) :
  0 < p_ref ->
  begin_routine p_ref interpolate w = (Ok tt, w') ->
  exists out,
    produced w' = Some out /\
    measureIntensity p_ref out = Ok STANDARD_INTENSITY.
Proof.
  intros Hp H.
  destruct (begin_routine_outcome p_ref interpolate w)
    as [| | | | |c l ref Hin Hc Hs Hh Hz Hm Hw]; try discriminate.
  injection H as <-.
  exists (noise3 p_ref ref w). split; [apply produced_routine_done|].
  apply (measure_scaled p_ref (noise2 p_ref ref w)); [exact Hp|].
  now apply scaleToIntensity_ok.
Qed.

(** ** The library Begin Experiment builds *)

Lemma loaded_fresh_None p_ref c s (w : World) l :
  heap w !! l = None -> l <> fresh (dom (heap w)) ->
  heap (loaded p_ref c s w) !! l = None.
Proof.
  intros Hl Hne. unfold loaded. gsimpl. now rewrite lookup_insert_ne.
Qed.

Lemma loaded_keeps p_ref c s (w : World) l x :
  heap w !! l = Some x -> heap (loaded p_ref c s w) !! l = Some x.
Proof.
  intros Hl. unfold loaded. gsimpl. rewrite lookup_alloc_old; [exact Hl|].
  rewrite Hl. eauto.
Qed.

Lemma loaded_new p_ref c s (w : World) :
  heap (loaded p_ref c s w) !! fresh (dom (heap w))
  = Some (scaled p_ref s STANDARD_INTENSITY).
Proof. unfold loaded. gsimpl. apply lookup_insert_eq. Qed.

(** X7.  A successful Begin Experiment discards whatever [stimuli] held
    and leaves it with exactly the two conditions, bound to two distinct
    objects that did not exist before; each holds its decoded recording
    scaled to the standard intensity; the objects alive before, both
    generators and the output are untouched. *)
Theorem begin_experiment_builds p_ref read_wav (w w' : World) :
  0 < p_ref ->
  begin_experiment p_ref read_wav w = (Ok tt, w') ->
  exists bat bet sa se la le,
    read_wav "audio/bat.wav" = Ok bat /\
    read_wav "audio/bet.wav" = Ok bet /\
    scaleToIntensity p_ref bat STANDARD_INTENSITY = Ok sa /\
    scaleToIntensity p_ref bet STANDARD_INTENSITY = Ok se /\
    measureIntensity p_ref sa = Ok STANDARD_INTENSITY /\
    measureIntensity p_ref se = Ok STANDARD_INTENSITY /\
    stimuli w' = <["e" := le]> (<["a" := la]> ∅) /\
    la <> le /\
    heap w !! la = None /\ heap w !! le = None /\
    heap w' !! la = Some sa /\ heap w' !! le = Some se /\
    (forall l s, heap w !! l = Some s -> heap w' !! l = Some s) /\
    py_random w' = py_random w /\
    np_random w' = np_random w /\
    trace w' = trace w.
Proof.
  intros Hp H.
  destruct (begin_experiment_Ok_inv p_ref read_wav w w' H)
    as (bat & bet & Ha & Hza & He & Hze & ->).
  set (w0 := set_stimuli ∅ w).
  set (w1 := loaded p_ref "a" bat w0).
  assert (heap w1 !! fresh (dom (heap w0))
          = Some (scaled p_ref bat STANDARD_INTENSITY)) as Hla
    by apply loaded_new.
  assert (fresh (dom (heap w0)) <> fresh (dom (heap w1))) as Hne.
  { intros E. pose proof (lookup_fresh_None (heap w1)) as Hn.
    rewrite <- E, Hla in Hn. discriminate. }
  exists bat, bet, (scaled p_ref bat STANDARD_INTENSITY),
    (scaled p_ref bet STANDARD_INTENSITY),
    (fresh (dom (heap w0))), (fresh (dom (heap w1))).
  assert (forall s, rms s <> 0 ->
            scaleToIntensity p_ref s STANDARD_INTENSITY
            = Ok (scaled p_ref s STANDARD_INTENSITY)) as Hsc
    by (intros s Hs; now apply scaleToIntensity_ok).
  split; [exact Ha|]. split; [exact He|].
  split; [now apply Hsc|]. split; [now apply Hsc|].
  split; [apply (measure_scaled p_ref bat); [exact Hp|now apply Hsc]|].
  split; [apply (measure_scaled p_ref bet); [exact Hp|now apply Hsc]|].
  split; [reflexivity|]. split; [exact Hne|].
  split; [apply (lookup_fresh_None (heap w))|].
  split.
  { destruct (heap w !! fresh (dom (heap w1))) as [x|] eqn:Hx; [|reflexivity].
    pose proof (loaded_keeps p_ref "a" bat w0 _ x Hx) as Hk.
    fold w1 in Hk. rewrite lookup_fresh_None in Hk. discriminate. }
  split; [now apply loaded_keeps|].
  split; [apply loaded_new|].
  split; [intros l s Hl; now apply loaded_keeps, loaded_keeps|].
  repeat split.
Qed.

Lemma begin_experiment_run p_ref read_wav (w : World) :
  begin_experiment p_ref read_wav w =
    let w0 := set_stimuli ∅ w in
    match read_wav "audio/bat.wav" with
    | Raise e => (Raise e, w0)
    | Ok bat =>
        if Req_dec_T (rms bat) 0
        then (Raise SilentBufferError,
              set_heap (<[fresh (dom (heap w0)) := bat]> (heap w0)) w0)
        else
          let w1 := loaded p_ref "a" bat w0 in
          match read_wav "audio/bet.wav" with
          | Raise e => (Raise e, w1)
          | Ok bet =>
              if Req_dec_T (rms bet) 0
              then (Raise SilentBufferError,
                    set_heap (<[fresh (dom (heap w1)) := bet]> (heap w1)) w1)
              else (Ok tt, loaded p_ref "e" bet w1)
          end
    end.
Proof.
  rewrite begin_experiment_unfold. cbv zeta. unfold bind at 1.
  rewrite (load_condition_run p_ref read_wav "a" "audio/bat.wav") by reflexivity.
  destruct (read_wav "audio/bat.wav") as [bat|e1]; [|reflexivity].
  destruct (Req_dec_T (rms bat) 0); [reflexivity|].
  unfold bind at 1.
  rewrite (load_condition_run p_ref read_wav "e" "audio/bet.wav") by reflexivity.
  destruct (read_wav "audio/bet.wav") as [bet|e2]; [|reflexivity].
  now destruct (Req_dec_T (rms bet) 0).
Qed.


(** ** Begin Routine after Begin Experiment *)

Lemma begin_experiment_complete p_ref read_wav (w w' : World) :
  begin_experiment p_ref read_wav w = (Ok tt, w') -> library_complete w'.
Proof.
  intros H c Hc.
  destruct (begin_experiment_Ok_inv p_ref read_wav w w' H)
    as (bat & bet & _ & _ & _ & _ & ->).
  set (w0 := set_stimuli ∅ w). set (w1 := loaded p_ref "a" bat w0).
  unfold conditions in Hc.
  apply elem_of_cons in Hc as [->|Hc];
    [|apply elem_of_cons in Hc as [->|Hc]; [|now apply elem_of_nil in Hc]].
  - exists (fresh (dom (heap w0))), (scaled p_ref bat STANDARD_INTENSITY).
    split; [reflexivity|]. apply loaded_keeps, loaded_new.
  - exists (fresh (dom (heap w1))), (scaled p_ref bet STANDARD_INTENSITY).
    split; [reflexivity|]. apply loaded_new.
Qed.

Lemma frames_complete {A} (m : M A) (w : World) :
  frames m -> library_complete w -> library_complete (snd (m w)).
Proof.
  intros Hf Hc c Hin. destruct (Hc c Hin) as (l & ref & Hs & Hh).
  destruct (Hf w) as [Es Eh]. exists l, ref. rewrite Es.
  split; [exact Hs|now apply Eh].
Qed.

Lemma frames_session p_ref interpolate answers :
  frames (session p_ref interpolate answers).
Proof.
  apply frames_for_each. intros k. unfold trial.
  apply frames_bind; [apply frames_begin_routine|]. intros _.
  apply frames_bind; [apply frames_press|]. intros _.
  apply frames_end_routine.
Qed.

Lemma complete_routine p_ref interpolate (w : World) (key : string) :
  library_complete w ->
  fst (begin_routine p_ref interpolate w) <> Raise (KeyError key).
Proof.
  intros Hc.
  destruct (begin_routine_outcome p_ref interpolate w)
    as [c Hin _ Hs| | | | | ]; cbn [fst]; try discriminate.
  destruct (Hc c Hin) as (l & ref & Hs' & _). congruence.
Qed.

(** X9.  Once Begin Experiment has succeeded, every condition keeps naming
    a live sound after any number of trials, so the lookup of the drawn
    condition in [stimuli] cannot fail: Begin Routine never raises
    KeyError there. *)
Theorem routine_finds_condition p_ref read_wav interpolate
    (answers : list string) (w w1 : World) :
  begin_experiment p_ref read_wav w = (Ok tt, w1) ->
  let w2 := snd (session p_ref interpolate answers w1) in
  library_complete w2 /\
  forall key, fst (begin_routine p_ref interpolate w2) <> Raise (KeyError key).
Proof.
  intros H. cbv zeta.
  assert (library_complete (snd (session p_ref interpolate answers w1))) as Hc.
  { apply frames_complete; [apply frames_session|].
    exact (begin_experiment_complete p_ref read_wav w w1 H). }
  split; [exact Hc|]. intros key. now apply complete_routine.
Qed.

(** ** Seeding, answering, and the notebook as a whole *)

Lemma choice_lookup {A} (xs : list A) (g : py_state) (x : A) :
  fst (choice xs g) = Ok x -> xs !! (g 0%nat mod length xs)%nat = Some x.
Proof.
  unfold choice. destruct xs as [|y ys]; [discriminate|].
  destruct (_ !! _) as [z|]; cbn [fst]; [now intros [= ->]|discriminate].
Qed.

(** X10.  After [random.seed(a)] the condition Begin Routine draws and
    records is fixed by the seed alone, whatever the state of the random
    module, of NumPy's generator and of everything else was, and whether
    or not the synthesis then succeeds. *)
Theorem seed_fixes_condition p_ref interpolate seed_stream (a : Z)
    (w : World) :
  let seeded := snd (random_seed seed_stream a w) in
  exists c,
    conditions !! (seed_stream a 0%nat mod 2)%nat = Some c /\
    random_condition (snd (begin_routine p_ref interpolate seeded)) = Some c.
Proof.
  cbv zeta.
  destruct (begin_routine_outcome p_ref interpolate
              (snd (random_seed seed_stream a w)))
    as [c Hin Hc Hs|c l Hin Hc Hs Hh|c l ref Hin Hc Hs Hh Hz
       |c l ref Hin Hc Hs Hh Hz Hm|c l ref Hin Hc Hs Hh Hz Hm Hw
       |c l ref Hin Hc Hs Hh Hz Hm Hw];
    exists c; (split; [exact (choice_lookup _ _ _ Hc)|reflexivity]).
Qed.

(** X11.  End Routine on its own: without a key it raises AttributeError,
    and it does so before it looks for the condition; with a key but
    before any Begin Routine it raises NameError; in both cases nothing is
    printed and the state is as before.  Otherwise it prints one line,
    "successful" when key and condition are equal and "unsuccessful" when
    not, and changes nothing else. *)
Theorem end_routine_alone (w : World) :
  (keys w = None -> end_routine w = (Raise AttributeError, w)) /\
  (forall k, keys w = Some k -> random_condition w = None ->
             end_routine w = (Raise NameError, w)) /\
  (forall k c, keys w = Some k -> random_condition w = Some c ->
     end_routine w =
       (Ok tt,
        set_trace
          (trace w ++
           [Printed (if String.eqb k c
                     then "Registering that this trial was successful"
                     else "Registering that this trial was unsuccessful")])
          w)).
Proof.
  unfold end_routine, read, bind. repeat split.
  - now intros ->.
  - intros k -> ->. reflexivity.
  - intros k c -> ->. unfold addResponse, print, modify.
    now destruct (String.eqb k c).
Qed.

(** X12.  Within a trial End Routine cannot fail: a trial ends as its
    Begin Routine ends, in the same state when that is an exception; a
    successful trial stores the key and adds to what Begin Routine left
    exactly the line that reports the answer. *)
Theorem trial_ends_as_routine p_ref interpolate (k : string) (w : World) :
  let routine := begin_routine p_ref interpolate w in
  let whole := trial p_ref interpolate k w in
  fst whole = fst routine /\
  (fst routine <> Ok tt -> snd whole = snd routine) /\
  (fst routine = Ok tt ->
   exists c,
     random_condition (snd routine) = Some c /\
     keys (snd whole) = Some k /\
     heap (snd whole) = heap (snd routine) /\
     trace (snd whole) =
       trace (snd routine) ++
       [Printed (if String.eqb k c
                 then "Registering that this trial was successful"
                 else "Registering that this trial was unsuccessful")]).
Proof.
  cbv zeta. unfold trial.
  destruct (begin_routine p_ref interpolate w) as [[[]|e] w1] eqn:E.
  - destruct (begin_routine_Ok_inv _ _ _ _ E) as (c & l & ref & _ & _ & _ & ->).
    rewrite (bind_Ok _ _ _ _ _ E). unfold press. rewrite bind_modify.
    rewrite (end_routine_run _ k c) by reflexivity.
    cbn [fst snd]. split; [reflexivity|]. split; [congruence|].
    intros _. exists c. unfold addResponse, print, modify.
    now destruct (String.eqb k c).
  - rewrite (bind_Raise _ _ _ _ _ E). cbn [fst snd].
    split; [reflexivity|]. split; [reflexivity|]. discriminate.
Qed.

Lemma bind_Ok_inv {A B} (m : M A) (k : A -> M B) w b w' :
  (x <- m ;; k x) w = (Ok b, w') ->
  exists a w1, m w = (Ok a, w1) /\ k a w1 = (Ok b, w').
Proof.
  unfold bind. destruct (m w) as [[a|e] w1]; [|discriminate].
  intros H. now exists a, w1.
Qed.

(** X13.  When the notebook runs through, what it adds to the output is
    the stimulus file of trial 5 of the participant, saved at 44100 Hz,
    the line that points the Sound component at that file, and the line
    that reports the answer "a"; which of the two reports it is depends on
    the seed's first draw only, not on NumPy's generator or the
    recordings. *)
Theorem notebook_output p_ref read_wav interpolate seed_stream
    (w w' : World) :
  notebook p_ref read_wav interpolate seed_stream w = (Ok tt, w') ->
  exists s,
    sampling_frequency s = 44100 /\
    trace w' =
      trace w ++
      [Saved "data/participant_staircase_23032017_stimulus_5.wav" s;
       Printed "Setting audio file of Sound component to 'data/participant_staircase_23032017_stimulus_5.wav'";
       Printed (if (seed_stream 42%Z 0 mod 2 =? 0)%nat
                then "Registering that this trial was successful"
                else "Registering that this trial was unsuccessful")].
Proof.
  unfold notebook. intros H.
  apply bind_Ok_inv in H as ([] & w1 & H1 & H).
  rewrite bind_modify in H. unfold fake_builder in H.
  apply bind_Ok_inv in H as ([] & w2 & H2 & H).
  assert (w2 = set_py_random (seed_stream 42%Z)
                 (set_keys None
                    (set_thisTrialN 5
                       (set_filename "data/participant_staircase_23032017"
                          (set_level 10 w1))))) as -> by now injection H2.
  apply bind_Ok_inv in H as ([] & w3 & H3 & H).
  unfold press in H. rewrite bind_modify in H.
  destruct (begin_routine_Ok_inv _ _ _ _ H3) as (c & l & ref & Hc & _ & _ & ->).
  rewrite (end_routine_run _ "a" c) in H by reflexivity.
  injection H as <-.
  destruct (begin_experiment_Ok_inv p_ref read_wav w w1 H1)
    as (bat & bet & _ & _ & _ & _ & ->).
  exists (resampled interpolate
            (noise3 p_ref ref
               (set_py_random (seed_stream 42%Z)
                  (set_keys None
                     (set_thisTrialN 5
                        (set_filename "data/participant_staircase_23032017"
                           (set_level 10
                              (loaded p_ref "e" bet
                                 (loaded p_ref "a" bat (set_stimuli ∅ w)))))))))
            44100).
  split; [apply resampled_rate|].
  apply choice_lookup in Hc. gsimpl. cbn [length conditions] in Hc.
  assert ((seed_stream 42%Z 0 mod 2 = 0 \/ seed_stream 42%Z 0 mod 2 = 1)%nat) as [E|E]
    by (pose proof (Nat.mod_upper_bound (seed_stream 42%Z 0%nat) 2); lia);
    rewrite E in Hc |- *; injection Hc as <-;
    unfold routine_done, noisy_at, drawn; gsimpl;
    rewrite <- app_assoc; reflexivity.
Qed.

(** ** Files of different trials, and re-running Begin Experiment *)

(** X14.  Two successful runs of Begin Routine save to the same path only
    if they ran under the same base name and the same trial number; the
    routine does not advance the trial number itself, so a second run
    under unchanged [filename] and [thisTrialN] saves to the path of the
    first. *)
Theorem saved_paths p_ref interpolate (w1 w1' w2 w2' : World) :
  begin_routine p_ref interpolate w1 = (Ok tt, w1') ->
  begin_routine p_ref interpolate w2 = (Ok tt, w2') ->
  exists path1 s1 line1 path2 s2 line2,
    trace w1' = trace w1 ++ [Saved path1 s1; Printed line1] /\
    trace w2' = trace w2 ++ [Saved path2 s2; Printed line2] /\
    (path1 = path2 <->
     filename w1 = filename w2 /\ thisTrialN w1 = thisTrialN w2) /\
    filename w1' = filename w1 /\ thisTrialN w1' = thisTrialN w1.
Proof.
  intros H1 H2.
  destruct (begin_routine_Ok_inv _ _ _ _ H1) as (c1 & l1 & r1 & _ & _ & _ & ->).
  destruct (begin_routine_Ok_inv _ _ _ _ H2) as (c2 & l2 & r2 & _ & _ & _ & ->).
  do 6 eexists.
  split; [reflexivity|]. split; [reflexivity|].
  split; [|split; reflexivity].
  split.
  - apply file_name_inj.
  - now intros [-> ->].
Qed.



(** ** When the file cannot be written *)

(** X16.  When the stimulus is synthesised but no file can be written at
    the path built from [filename] and [thisTrialN], Begin Routine fails at
    the save: [noisy_stimulus] names the buffer the pipeline returned,
    nothing is saved, and the Sound component is not pointed anywhere. *)
Theorem begin_routine_unwritable_path p_ref interpolate (w : World)
    (c : string) (l : loc) (ref out : Sound) :
  fst (choice conditions (py_random w)) = Ok c ->
  stimuli w !! c = Some l ->
  heap w !! l = Some ref ->
  synthesize p_ref ref (level w) STANDARD_INTENSITY (np_random w) = Ok out ->
  writable w (stimulus_file_name (filename w) (thisTrialN w)) = false ->
  let run := begin_routine p_ref interpolate w in
  fst run = Raise IOWriteError /\
  produced (snd run) = Some out /\
  trace (snd run) = trace w /\
  random_condition (snd run) = Some c.
Proof.
  intros Hc Hs Hh Hout Hw.
  destruct (choice_conditions (py_random w)) as (c' & Hc' & _).
  assert (c' = c) as -> by (rewrite Hc' in Hc; now injection Hc).
  destruct (Req_dec_T (rms (noise0 ref w)) 0) as [Hz|Hz].
  { rewrite synthesize_silent_noise in Hout by exact Hz. discriminate. }
  destruct (Req_dec_T (rms (noise2 p_ref ref w)) 0) as [Hm|Hm].
  { rewrite synthesize_silent_mix in Hout by assumption. discriminate. }
  rewrite synthesize_ok in Hout by assumption. injection Hout as <-.
  cbv zeta.
  rewrite (begin_routine_unwritable p_ref interpolate w c l ref
             Hc' Hs Hh Hz Hm Hw).
  cbn [fst snd]. split; [reflexivity|].
  split; [apply produced_routine_unsaved|]. split; reflexivity.
Qed.

(** ** The further properties at the small session *)

Import Studio.

Lemma studio_experiment :
  begin_experiment 1 decoder blank
  = (Ok tt, loaded 1 "e" recording (loaded 1 "a" recording (set_stimuli ∅ blank))).
Proof.
  apply begin_experiment_ok; try reflexivity; apply recording_audible.
Qed.

Lemma studio_no_bet_run :
  begin_experiment 1 decoder_no_bet blank
  = (Raise ValueError, loaded 1 "a" recording (set_stimuli ∅ blank)).
Proof.
  rewrite begin_experiment_run. cbv zeta.
  change (decoder_no_bet "audio/bat.wav") with (Ok recording).
  change (decoder_no_bet "audio/bet.wav") with (@Raise Sound ValueError).
  cbv beta iota.
  destruct (Req_dec_T (rms recording) 0) as [Hz|_];
    [now apply recording_audible in Hz|reflexivity].
Qed.


Lemma studio_notebook :
  exists w', notebook 1 decoder interpolation seeding blank = (Ok tt, w').
Proof.
  unfold notebook. eexists.
  rewrite (bind_Ok _ _ _ _ _ studio_experiment).
  rewrite bind_modify. unfold fake_builder.
  erewrite bind_Ok; [|reflexivity].
  erewrite bind_Ok;
    [|apply (begin_routine_ok _ _ _ "a" 0%nat reference);
      [reflexivity|reflexivity|reflexivity| | |reflexivity]].
  - unfold press. rewrite bind_modify.
    rewrite (end_routine_run _ "a" "a") by reflexivity. reflexivity.
  - apply (rms_nonzero 1); [now left|lra].
  - eapply rms_nonzero; [left; reflexivity|].
    match goal with |- _ * gain ?a ?b + _ * gain ?c ?d <> 0 =>
      pose proof (gain_pos a b); pose proof (gain_pos c d);
      change (1 * gain a b + 1 * gain c d <> 0); lra end.
Qed.

Lemma begin_routine_missing_condition_witness :
  begin_experiment 1 decoder_no_bet blank
  = (Raise ValueError, loaded 1 "a" recording (set_stimuli ∅ blank)) /\
  fst (choice conditions
         (py_random (loaded 1 "a" recording (set_stimuli ∅ blank)))) = Ok "e" /\
  stimuli (loaded 1 "a" recording (set_stimuli ∅ blank)) !! "e" = None /\
  fst (begin_routine 1 interpolation
         (loaded 1 "a" recording (set_stimuli ∅ blank)))
  = Raise (KeyError "e") /\
  heap (snd (begin_routine 1 interpolation
               (loaded 1 "a" recording (set_stimuli ∅ blank))))
  = heap (loaded 1 "a" recording (set_stimuli ∅ blank)).
Proof.
  split; [apply studio_no_bet_run|].
  split; [reflexivity|]. split; [reflexivity|].
  destruct (begin_routine_missing_condition 1 interpolation
              (loaded 1 "a" recording (set_stimuli ∅ blank)) "e")
    as (H1 & H2 & _); [reflexivity|reflexivity|].
  now split.
Defined.

Lemma begin_routine_saves_then_sets_witness :
  begin_routine 1 interpolation world_a
  = (Ok tt, routine_done 1 interpolation "a" reference world_a) /\
  exists out,
    produced (routine_done 1 interpolation "a" reference world_a) = Some out /\
    sampling_frequency (resampled interpolation out 44100) = 44100 /\
    trace (routine_done 1 interpolation "a" reference world_a) =
      trace world_a ++
      [Saved (stimulus_file_name (filename world_a) (thisTrialN world_a))
             (resampled interpolation out 44100);
       Printed ("Setting audio file of Sound component to '"
                +:+ stimulus_file_name (filename world_a) (thisTrialN world_a)
                +:+ "'")].
Proof.
  split; [apply run_a|].
  apply (begin_routine_saves_then_sets 1 interpolation world_a), run_a.
Defined.

Lemma begin_routine_consumes_witness :
  begin_routine 1 interpolation world_a
  = (Ok tt, routine_done 1 interpolation "a" reference world_a) /\
  exists c l ref out,
    fst (choice conditions (py_random world_a)) = Ok c /\
    stimuli world_a !! c = Some l /\
    heap world_a !! l = Some ref /\
    produced (routine_done 1 interpolation "a" reference world_a) = Some out /\
    n_samples out = n_samples ref /\
    sampling_frequency out = sampling_frequency ref.
Proof.
  split; [apply run_a|].
  destruct (begin_routine_consumes 1 interpolation world_a _ run_a)
    as (c & l & ref & out & H1 & H2 & H3 & H4 & H5 & H6 & _).
  now exists c, l, ref, out.
Defined.

Lemma begin_routine_standard_loudness_witness :
  0 < 1 /\
  begin_routine 1 interpolation world_a
  = (Ok tt, routine_done 1 interpolation "a" reference world_a) /\
  exists out,
    produced (routine_done 1 interpolation "a" reference world_a) = Some out /\
    measureIntensity 1 out = Ok STANDARD_INTENSITY.
Proof.
  split; [lra|]. split; [apply run_a|].
  apply (begin_routine_standard_loudness 1 interpolation world_a);
    [lra|apply run_a].
Defined.

Lemma begin_experiment_builds_witness :
  0 < 1 /\
  begin_experiment 1 decoder blank
  = (Ok tt, loaded 1 "e" recording (loaded 1 "a" recording (set_stimuli ∅ blank))) /\
  exists la le,
    la <> le /\
    stimuli (loaded 1 "e" recording (loaded 1 "a" recording (set_stimuli ∅ blank)))
    = <["e" := le]> (<["a" := la]> ∅).
Proof.
  split; [lra|]. split; [apply studio_experiment|].
  destruct (begin_experiment_builds 1 decoder blank _ ltac:(lra) studio_experiment)
    as (_ & _ & _ & _ & la & le & _ & _ & _ & _ & _ & _ & Hs & Hne & _).
  now exists la, le.
Defined.


Lemma routine_finds_condition_witness :
  begin_experiment 1 decoder blank
  = (Ok tt, loaded 1 "e" recording (loaded 1 "a" recording (set_stimuli ∅ blank))) /\
  library_complete
    (snd (session 1 interpolation ["a"; "e"]
            (loaded 1 "e" recording
               (loaded 1 "a" recording (set_stimuli ∅ blank))))).
Proof.
  split; [apply studio_experiment|].
  destruct (routine_finds_condition 1 decoder interpolation ["a"; "e"] blank _
              studio_experiment) as [H _].
  exact H.
Defined.

Lemma notebook_output_witness :
  exists w',
    notebook 1 decoder interpolation seeding blank = (Ok tt, w') /\
    exists s,
      sampling_frequency s = 44100 /\
      trace w' =
        [Saved "data/participant_staircase_23032017_stimulus_5.wav" s;
         Printed "Setting audio file of Sound component to 'data/participant_staircase_23032017_stimulus_5.wav'";
         Printed "Registering that this trial was successful"].
Proof.
  destruct studio_notebook as [w' H]. exists w'. split; [exact H|].
  exact (notebook_output 1 decoder interpolation seeding blank w' H).
Defined.

Lemma saved_paths_witness :
  begin_routine 1 interpolation world_a
  = (Ok tt, routine_done 1 interpolation "a" reference world_a) /\
  begin_routine 1 interpolation world_b
  = (Ok tt, routine_done 1 interpolation "a" reference world_b) /\
  thisTrialN (routine_done 1 interpolation "a" reference world_a)
  = thisTrialN world_a.
Proof.
  split; [apply run_a|]. split; [apply run_b|].
  destruct (saved_paths 1 interpolation world_a _ world_b _ run_a run_b)
    as (p1 & s1 & l1 & p2 & s2 & l2 & _ & _ & _ & _ & H).
  exact H.
Defined.

Lemma begin_routine_unwritable_path_witness :
  fst (choice conditions (py_random read_only)) = Ok "a" /\
  stimuli read_only !! "a" = Some 0%nat /\
  heap read_only !! 0%nat = Some reference /\
  writable read_only
    (stimulus_file_name (filename read_only) (thisTrialN read_only)) = false /\
  fst (begin_routine 1 interpolation read_only) = Raise IOWriteError /\
  produced (snd (begin_routine 1 interpolation read_only))
  = Some (noise3 1 reference read_only).
Proof.
  repeat (split; [reflexivity|]).
  destruct (begin_routine_unwritable_path 1 interpolation read_only
              "a" 0%nat reference (noise3 1 reference read_only))
    as (H1 & H2 & _); try reflexivity.
  - apply synthesize_ok; [apply noise0_a_audible|apply noise2_a_audible].
  - now split.
Defined.
